(** * Oblivius package updater: a shallow embedding of [oblivius-updater.py]

    The development follows the script top-down: the Python string and
    list primitives it relies on, the [Package] / [UpdateResult] data
    classes, the three source adapters, the [UpdaterTUI] state with its
    key handlers, the update executor [run_updates], and [main]'s
    gathering pass.  Theorems about them come last. *)

From Stdlib Require Import ZArith List String Ascii Bool Lia.
From stdpp Require Import base tactics option list.
Import ListNotations.

Local Open Scope string_scope.
Local Open Scope list_scope.
Local Open Scope Z_scope.

(** ** Python primitives *)

Module Py.

(** [str.isspace] on one character.  Strings are sequences of code
    points below 256; among those Python counts TAB..CR, FS..US, SPACE,
    NEL (0x85) and NBSP (0xA0) as whitespace. *)
Definition isspace (c : ascii) : bool :=
  let n := N_of_ascii c in
  ((9 <=? n) && (n <=? 13) || (28 <=? n) && (n <=? 32)
   || (n =? 133) || (n =? 160))%N.

(** [str.lower] on one character (ASCII and Latin-1 capitals). *)
Definition lower_char (c : ascii) : ascii :=
  let n := N_of_ascii c in
  if ((65 <=? n) && (n <=? 90)
      || (192 <=? n) && (n <=? 222) && negb (n =? 215))%N
  then ascii_of_N (n + 32) else c.

Fixpoint lower (s : string) : string :=
  match s with
  | EmptyString => EmptyString
  | String c s' => String (lower_char c) (lower s')
  end.

Fixpoint lstrip (s : string) : string :=
  match s with
  | EmptyString => EmptyString
  | String c s' => if isspace c then lstrip s' else s
  end.

Fixpoint rstrip (s : string) : string :=
  match s with
  | EmptyString => EmptyString
  | String c s' =>
      match rstrip s' with
      | EmptyString => if isspace c then EmptyString else String c EmptyString
      | r => String c r
      end
  end.

(** [s.strip()] *)
Definition strip (s : string) : string := rstrip (lstrip s).

(** Truth value of a [str]: non-empty. *)
Definition truthy (s : string) : bool :=
  match s with EmptyString => false | String _ _ => true end.

(** Truth value of an [Optional[str]]. *)
Definition truthy_opt (o : option string) : bool :=
  match o with Some s => truthy s | None => false end.

(** [s.split(sep)] for a one-character separator: always at least one
    piece, empty pieces kept. *)
Fixpoint split (sep : ascii) (s : string) : list string :=
  match s with
  | EmptyString => [EmptyString]
  | String c s' =>
      if Ascii.eqb c sep then EmptyString :: split sep s'
      else match split sep s' with
           | w :: ws => String c w :: ws
           | [] => [String c EmptyString]
           end
  end.

(** [s.split()] with no argument: runs of whitespace separate the
    fields, leading and trailing whitespace yields no empty field. *)
Fixpoint split_ws (s : string) : list string :=
  match s with
  | EmptyString => []
  | String c s' =>
      if isspace c then split_ws s'
      else match s' with
           | EmptyString => [String c EmptyString]
           | String c' _ =>
               if isspace c' then String c EmptyString :: split_ws s'
               else match split_ws s' with
                    | w :: ws => String c w :: ws
                    | [] => [String c EmptyString]
                    end
           end
  end.

(** [l[i]] with Python's index rule: [-len <= i < 0] counts from the
    end, anything outside [-len, len) raises [IndexError] ([None]). *)
Definition index {A} (l : list A) (i : Z) : option nat :=
  let n := Z.of_nat (length l) in
  if (0 <=? i) && (i <? n) then Some (Z.to_nat i)
  else if (- n <=? i) && (i <? 0) then Some (Z.to_nat (i + n))
  else None.

Definition getitem {A} (l : list A) (i : Z) : option A :=
  k ← index l i; l !! k.

Definition NL : ascii := ascii_of_N 10.
Definition TAB : ascii := ascii_of_N 9.

End Py.

(** ** Data classes *)

Inductive PackageSource := OFFICIAL | AUR | FLATPAK.

Definition PackageSource_eqb (a b : PackageSource) : bool :=
  match a, b with
  | OFFICIAL, OFFICIAL | AUR, AUR | FLATPAK, FLATPAK => true
  | _, _ => false
  end.

Module Package.
Record t := mk {
  name : string;
  current_version : string;
  new_version : string;
  source : PackageSource;
  selected : bool
}.
(** The dataclass constructor as the adapters call it: [selected]
    takes its default, [True]. *)
Definition new (n cur nw : string) (src : PackageSource) : t :=
  mk n cur nw src true.
Definition set_selected (b : bool) (p : t) : t :=
  mk (name p) (current_version p) (new_version p) (source p) b.
End Package.

Module UpdateResult.
Record t := mk {
  name : string;
  source : PackageSource;
  success : bool;
  error : string
}.
End UpdateResult.

(** ** Subprocess interface *)

(** What [subprocess.run] hands back when the child ran to completion. *)
Record CompletedProcess := {
  returncode : Z;
  stdout : string;
  stderr : option string
}.

(** Outcome of a discovery command started with [timeout=60]: the two
    exceptions the adapters catch, or a completed process. *)
Inductive RunOutcome :=
| Completed (p : CompletedProcess)
| TimeoutExpired
| FileNotFoundError.

(** ** Source adapters *)

(** Body of the [for line in ...] loop of [get_official_updates]; [None]
    when nothing is appended. *)
Definition official_line (line : string) : option Package.t :=
  let parts := Py.split_ws line in
  if (4 <=? length parts)%nat then
    Some (Package.new (nth 0 parts "") (nth 1 parts "") (nth 3 parts "") OFFICIAL)
  else None.

Definition aur_line (line : string) : option Package.t :=
  let parts := Py.split_ws line in
  if (4 <=? length parts)%nat then
    Some (Package.new (nth 0 parts "") (nth 1 parts "") (nth 3 parts "") AUR)
  else if (2 <=? length parts)%nat then
    let current := if (1 <? length parts)%nat then nth 1 parts "" else "?" in
    Some (Package.new (nth 0 parts "") current "?" AUR)
  else None.

Definition flatpak_line (line : string) : option Package.t :=
  let parts := Py.split Py.TAB line in
  match parts with
  | [] => None
  | _ =>
      let name := Py.strip (nth 0 parts "") in
      let new_version :=
        if (1 <? length parts)%nat then Py.strip (nth 1 parts "") else "?" in
      if Py.truthy name
      then Some (Package.new name "installed" new_version FLATPAK)
      else None
  end.

(** The shared frame of the three adapters: exceptions and a non-zero
    status or blank output give no packages; otherwise every line of the
    stripped output goes through the loop body. *)
Definition parse_listing (body : string → option Package.t) (r : RunOutcome)
  : list Package.t :=
  match r with
  | Completed p =>
      if (returncode p =? 0) && Py.truthy (Py.strip (stdout p))
      then omap body (Py.split Py.NL (Py.strip (stdout p)))
      else []
  | TimeoutExpired | FileNotFoundError => []
  end.

Definition get_official_updates (checkupdates : RunOutcome) : list Package.t :=
  parse_listing official_line checkupdates.

Definition get_aur_updates (helper_Qum : RunOutcome) : list Package.t :=
  parse_listing aur_line helper_Qum.

Definition get_flatpak_updates (which_flatpak : option string)
    (remote_ls : RunOutcome) : list Package.t :=
  if negb (Py.truthy_opt which_flatpak) then []
  else parse_listing flatpak_line remote_ls.

(** What [main] sees of the machine while it gathers packages. *)
Record Env := {
  which : string → option string;          (* shutil.which *)
  checkupdates : RunOutcome;               (* ["checkupdates"] *)
  helper_Qum : string → RunOutcome;        (* [helper, "-Qum"] *)
  flatpak_remote_ls : RunOutcome           (* ["flatpak", "remote-ls", ...] *)
}.

Fixpoint first_found (which : string → option string) (cands : list string)
  : option string :=
  match cands with
  | [] => None
  | helper :: rest =>
      if Py.truthy_opt (which helper) then Some helper
      else first_found which rest
  end.

Definition detect_aur_helper (env : Env) : option string :=
  first_found (which env) ["paru"; "yay"].

(** The catalogue [main] hands to the TUI. *)
Definition gather_packages (env : Env) : list Package.t :=
  let aur_helper := detect_aur_helper env in
  let packages := [] in
  let packages := packages ++ get_official_updates (checkupdates env) in
  let packages :=
    match aur_helper with
    | Some h =>
        if Py.truthy h then packages ++ get_aur_updates (helper_Qum env h)
        else packages
    | None => packages
    end in
  packages ++ get_flatpak_updates (which env "flatpak") (flatpak_remote_ls env).

(** ** The terminal UI *)

Module Keystroke.
(** A [blessed] keystroke: the name of a special key ([None] for an
    ordinary character) and the text of the key itself. *)
Record t := mk { name : option string; text : string }.
End Keystroke.

Inductive Mode := SELECT | CONFIRM | UPDATING | RESULTS.

Record UpdaterTUI := mkTUI {
  packages : list Package.t;
  aur_helper : option string;
  cursor : Z;
  scroll_offset : Z;
  mode : Mode;
  in_button_area : bool;
  button_cursor : Z;
  results : list UpdateResult.t
}.

(** [UpdaterTUI.__init__] *)
Definition init (pkgs : list Package.t) (helper : option string) : UpdaterTUI :=
  mkTUI pkgs helper 0 0 SELECT false 0 [].

Definition set_packages (v : list Package.t) (s : UpdaterTUI) :=
  mkTUI v (aur_helper s) (cursor s) (scroll_offset s) (mode s)
        (in_button_area s) (button_cursor s) (results s).
Definition set_cursor (v : Z) (s : UpdaterTUI) :=
  mkTUI (packages s) (aur_helper s) v (scroll_offset s) (mode s)
        (in_button_area s) (button_cursor s) (results s).
Definition set_scroll_offset (v : Z) (s : UpdaterTUI) :=
  mkTUI (packages s) (aur_helper s) (cursor s) v (mode s)
        (in_button_area s) (button_cursor s) (results s).
Definition set_mode (v : Mode) (s : UpdaterTUI) :=
  mkTUI (packages s) (aur_helper s) (cursor s) (scroll_offset s) v
        (in_button_area s) (button_cursor s) (results s).
Definition set_in_button_area (v : bool) (s : UpdaterTUI) :=
  mkTUI (packages s) (aur_helper s) (cursor s) (scroll_offset s) (mode s)
        v (button_cursor s) (results s).
Definition set_button_cursor (v : Z) (s : UpdaterTUI) :=
  mkTUI (packages s) (aur_helper s) (cursor s) (scroll_offset s) (mode s)
        (in_button_area s) v (results s).
Definition set_results (v : list UpdateResult.t) (s : UpdaterTUI) :=
  mkTUI (packages s) (aur_helper s) (cursor s) (scroll_offset s) (mode s)
        (in_button_area s) (button_cursor s) v.

(** [len(l)] as a Python integer. *)
Definition len {A} (l : list A) : Z := Z.of_nat (length l).

(** Truth value of a list: non-empty. *)
Definition nonempty {A} (l : list A) : bool :=
  match l with [] => false | _ :: _ => true end.

(** [visible_height], from the terminal's current height. *)
Definition visible_height (term_height : Z) : Z := term_height - 10.

Definition SELECT_BUTTONS : list string :=
  ["Select All"; "Deselect All"; "Update"; "Exit"].
Definition CONFIRM_BUTTONS : list string := ["Yes, Update"; "Go Back"].
Definition RESULTS_BUTTONS : list string := ["Exit"].

Definition current_buttons (s : UpdaterTUI) : list string :=
  match mode s with
  | SELECT => SELECT_BUTTONS
  | CONFIRM => CONFIRM_BUTTONS
  | RESULTS => RESULTS_BUTTONS
  | UPDATING => []
  end.

Definition move_cursor (term_height delta : Z) (s : UpdaterTUI) : UpdaterTUI :=
  if in_button_area s then
    set_button_cursor
      (Z.max 0 (Z.min (len (current_buttons s) - 1) (button_cursor s + delta))) s
  else
    let s := set_cursor
               (Z.max 0 (Z.min (len (packages s) - 1) (cursor s + delta))) s in
    if cursor s <? scroll_offset s then
      set_scroll_offset (cursor s) s
    else if cursor s >=? scroll_offset s + visible_height term_height then
      set_scroll_offset (cursor s - visible_height term_height + 1) s
    else s.

Definition move_to_buttons (s : UpdaterTUI) : UpdaterTUI :=
  set_button_cursor 0 (set_in_button_area true s).

Definition move_to_list (s : UpdaterTUI) : UpdaterTUI :=
  set_in_button_area false s.

Definition flip_selected (p : Package.t) : Package.t :=
  Package.set_selected (negb (Package.selected p)) p.

(** [None] stands for an [IndexError] raised by [self.packages[self.cursor]]. *)
Definition toggle_current (s : UpdaterTUI) : option UpdaterTUI :=
  if negb (in_button_area s) && nonempty (packages s) then
    k ← Py.index (packages s) (cursor s);
    Some (set_packages (alter flip_selected k (packages s)) s)
  else Some s.

Definition select_all (s : UpdaterTUI) : UpdaterTUI :=
  set_packages (map (Package.set_selected true) (packages s)) s.

Definition deselect_all (s : UpdaterTUI) : UpdaterTUI :=
  set_packages (map (Package.set_selected false) (packages s)) s.

(** The two strings [activate_button] may return. *)
Inductive Action := exit | run_updates_requested.

(** [activate_button]: the returned action ([None] as in Python) and the
    state after the call; the outer [None] is an [IndexError] from the
    button lookup. *)
Definition activate_button (s : UpdaterTUI)
  : option (option Action * UpdaterTUI) :=
  match mode s with
  | SELECT =>
      btn ← Py.getitem SELECT_BUTTONS (button_cursor s);
      if String.eqb btn "Select All" then
        Some (None, move_to_list (select_all s))
      else if String.eqb btn "Deselect All" then
        Some (None, move_to_list (deselect_all s))
      else if String.eqb btn "Update" then
        if existsb Package.selected (packages s) then
          Some (None, set_button_cursor 0
                        (set_in_button_area true (set_mode CONFIRM s)))
        else Some (None, s)
      else if String.eqb btn "Exit" then Some (Some exit, s)
      else Some (None, s)
  | CONFIRM =>
      btn ← Py.getitem CONFIRM_BUTTONS (button_cursor s);
      if String.eqb btn "Yes, Update" then Some (Some run_updates_requested, s)
      else if String.eqb btn "Go Back" then
        Some (None, set_in_button_area false (set_mode SELECT s))
      else Some (None, s)
  | RESULTS => Some (Some exit, s)
  | UPDATING => Some (None, s)
  end.

(** ** The update executor *)

(** The answers of the update commands: the [n]-th [subprocess.run] call
    of one [run_updates], made with argument vector [argv], completes
    with [procs n argv].  Every command is taken to start and run to
    its exit status, as the update commands have no timeout; a binary
    that vanished between discovery and update is outside the model. *)
Definition Procs := nat → list string → CompletedProcess.

Definition last_error (err : option string) : string :=
  let error_lines :=
    map Py.strip
        (List.filter (λ l, Py.truthy (Py.strip l))
                     (Py.split Py.NL (default "" err))) in
  List.last error_lines "Unknown error".

(** What one iteration of either update loop appends to [self.results]. *)
Definition record_result (pkg : Package.t) (result : CompletedProcess)
  : UpdateResult.t :=
  if negb (returncode result =? 0) then
    UpdateResult.mk (Package.name pkg) (Package.source pkg) false
                    (last_error (stderr result))
  else
    UpdateResult.mk (Package.name pkg) (Package.source pkg) true "".

(** One [for i, pkg in enumerate(...)] loop; the loop state is the result
    list so far and the number of subprocess calls made so far. *)
Definition update_loop (procs : Procs) (argv : Package.t → list string)
    (pkgs : list Package.t) (st : list UpdateResult.t * nat)
  : list UpdateResult.t * nat :=
  fold_left
    (λ st pkg, (st.1 ++ [record_result pkg (procs st.2 (argv pkg))], S st.2))
    pkgs st.

Definition pacman_argv (helper : string) (pkg : Package.t) : list string :=
  [helper; "-S"; "--needed"; "--noconfirm"; Package.name pkg].

Definition flatpak_argv (pkg : Package.t) : list string :=
  ["flatpak"; "update"; "-y"; Package.name pkg].

Definition from_source (src : PackageSource) (l : list Package.t) :=
  List.filter (λ p, PackageSource_eqb (Package.source p) src) l.

Definition run_updates (procs : Procs) (s : UpdaterTUI) : UpdaterTUI :=
  let s := set_mode UPDATING s in
  let selected := List.filter Package.selected (packages s) in
  let official := from_source OFFICIAL selected in
  let aur := from_source AUR selected in
  let flatpaks := from_source FLATPAK selected in
  let st : list UpdateResult.t * nat := ([], 0%nat) in
  let pacman_pkgs := official ++ aur in
  let st :=
    if nonempty pacman_pkgs && Py.truthy_opt (aur_helper s) then
      let helper := default "" (aur_helper s) in
      (* [helper, "-Sy"]: the answer is not looked at *)
      let st := (st.1, S st.2) in
      update_loop procs (pacman_argv helper) pacman_pkgs st
    else st in
  let st :=
    if nonempty flatpaks then update_loop procs flatpak_argv flatpaks st
    else st in
  (* ["pkill", "-RTMIN+1", "waybar"]: the answer is not looked at *)
  let s := set_results st.1 s in
  set_button_cursor 0 (set_in_button_area true (set_mode RESULTS s)).

(** ** The interaction loop *)

(** What the [if]/[elif] chain on the key selects, tests in source order. *)
Inductive Binding :=
| Up | Down | Left | Right | PgUp | PgDown | Home | End_
| Space | Enter | Quit | Unbound.

Definition name_is (key : Keystroke.t) (n : string) : bool :=
  match Keystroke.name key with
  | Some m => String.eqb m n
  | None => false
  end.

Definition lower_in (key : Keystroke.t) (cs : list string) : bool :=
  existsb (String.eqb (Py.lower (Keystroke.text key))) cs.

Definition binding (key : Keystroke.t) : Binding :=
  if name_is key "KEY_UP" || lower_in key ["w"; "k"] then Up
  else if name_is key "KEY_DOWN" || lower_in key ["s"; "j"] then Down
  else if name_is key "KEY_LEFT" then Left
  else if name_is key "KEY_RIGHT" then Right
  else if name_is key "KEY_PGUP" then PgUp
  else if name_is key "KEY_PGDOWN" then PgDown
  else if name_is key "KEY_HOME" then Home
  else if name_is key "KEY_END" then End_
  else if String.eqb (Keystroke.text key) " " then Space
  else if name_is key "KEY_ENTER" then Enter
  else if String.eqb (Py.lower (Keystroke.text key)) "q" then Quit
  else Unbound.

(** One turn of the loop as the environment supplies it: the terminal
    height the handlers read, the key [inkey] returns and, should the key
    start the executor, the answers of its commands. *)
Record Event := {
  term_height : Z;
  key : Keystroke.t;
  procs : Procs
}.

(** How one turn ends: the loop goes on, the loop is left by [break], or
    an [IndexError] escapes. *)
Inductive Outcome :=
| Running (s : UpdaterTUI)
| Exited (s : UpdaterTUI)
| Raised.

Definition is_select (m : Mode) : bool :=
  match m with SELECT => true | _ => false end.

(** [action = self.activate_button()] and the two tests on it. *)
Definition press_button (e : Event) (s : UpdaterTUI) : Outcome :=
  match activate_button s with
  | None => Raised
  | Some (Some exit, s') => Exited s'
  | Some (Some run_updates_requested, s') => Running (run_updates (procs e) s')
  | Some (None, s') => Running s'
  end.

Definition toggle (s : UpdaterTUI) : Outcome :=
  match toggle_current s with
  | Some s' => Running s'
  | None => Raised
  end.

(** The body of [while True] after [draw] and [inkey]. *)
Definition handle_key (e : Event) (s : UpdaterTUI) : Outcome :=
  let h := term_height e in
  match mode s with
  | UPDATING => Running s
  | _ =>
    match binding (key e) with
    | Up =>
        if in_button_area s && is_select (mode s) then
          let s := move_to_list s in
          let s := set_cursor (len (packages s) - 1) s in
          Running (set_scroll_offset
                     (Z.max 0 (len (packages s) - visible_height h)) s)
        else Running (move_cursor h (-1) s)
    | Down =>
        if negb (in_button_area s) && is_select (mode s) then
          if cursor s >=? len (packages s) - 1 then Running (move_to_buttons s)
          else Running (move_cursor h 1 s)
        else if in_button_area s then Running s
        else Running s
    | Left =>
        if in_button_area s then Running (move_cursor h (-1) s) else Running s
    | Right =>
        if in_button_area s then Running (move_cursor h 1 s) else Running s
    | PgUp =>
        if negb (in_button_area s)
        then Running (move_cursor h (- visible_height h) s) else Running s
    | PgDown =>
        if negb (in_button_area s)
        then Running (move_cursor h (visible_height h) s) else Running s
    | Home =>
        if negb (in_button_area s)
        then Running (set_scroll_offset 0 (set_cursor 0 s)) else Running s
    | End_ =>
        if negb (in_button_area s) then
          let s := set_cursor (len (packages s) - 1) s in
          Running (set_scroll_offset
                     (Z.max 0 (len (packages s) - visible_height h)) s)
        else Running s
    | Space =>
        if is_select (mode s) then
          if in_button_area s then press_button e s else toggle s
        else Running s
    | Enter =>
        if in_button_area s then press_button e s
        else if is_select (mode s) then toggle s
        else Running s
    | Quit => Exited s
    | Unbound => Running s
    end
  end.

(** [run] on the keys typed so far: [Running] when the loop is waiting
    for the next key. *)
Fixpoint run (events : list Event) (s : UpdaterTUI) : Outcome :=
  match events with
  | [] => Running s
  | e :: rest =>
      match handle_key e s with
      | Running s' => run rest s'
      | o => o
      end
  end.

(** [main] from the gathered catalogue on: with no package at all the
    TUI is never started. *)
Definition main (env : Env) (events : list Event) : option Outcome :=
  let packages := gather_packages env in
  if negb (nonempty packages) then None
  else Some (run events (init packages (detect_aur_helper env))).

(** ** Vocabulary of the statements *)

(** A field of [str.split()]: not empty, no whitespace in it. *)
Fixpoint no_space (w : string) : bool :=
  match w with
  | EmptyString => true
  | String c w' => negb (Py.isspace c) && no_space w'
  end.

Definition is_field (w : string) : Prop := w ≠ "" ∧ no_space w = true.

Fixpoint has_char (c : ascii) (s : string) : bool :=
  match s with
  | EmptyString => false
  | String a s' => Ascii.eqb a c || has_char c s'
  end.

(** [sep.join(pieces)] *)
Fixpoint join (sep : string) (pieces : list string) : string :=
  match pieces with
  | [] => ""
  | [w] => w
  | w :: rest => String.append w (String.append sep (join sep rest))
  end.

(** The state a finished or waiting run is in; nothing after an
    [IndexError]. *)
Definition state_of (o : Outcome) : option UpdaterTUI :=
  match o with
  | Running s | Exited s => Some s
  | Raised => None
  end.

(** [[p for p in self.packages if p.selected]] and its size, the
    "Selected: k/n" count of the status line. *)
Definition selected_items (s : UpdaterTUI) : list Package.t :=
  List.filter Package.selected (packages s).

Definition selected_count (s : UpdaterTUI) : nat := length (selected_items s).

(** The two batches of the executor. *)
Definition pacman_batch (s : UpdaterTUI) : list Package.t :=
  from_source OFFICIAL (selected_items s) ++ from_source AUR (selected_items s).

Definition flatpak_batch (s : UpdaterTUI) : list Package.t :=
  from_source FLATPAK (selected_items s).

(** The items an update command is started for, in the order the
    commands are started: the repo and AUR items when a helper is known,
    then the flatpak items. *)
Definition executed_batch (s : UpdaterTUI) : list Package.t :=
  (if Py.truthy_opt (aur_helper s) then pacman_batch s else [])
  ++ flatpak_batch s.

(** The command started for one item. *)
Definition update_argv (s : UpdaterTUI) (pkg : Package.t) : list string :=
  match Package.source pkg with
  | FLATPAK => flatpak_argv pkg
  | OFFICIAL | AUR => pacman_argv (default "" (aur_helper s)) pkg
  end.

(** Number of subprocess calls made before the first item: the database
    sync, when the pacman batch runs. *)
Definition first_update_call (s : UpdaterTUI) : nat :=
  if nonempty (pacman_batch s) && Py.truthy_opt (aur_helper s) then 1 else 0.

(** The answer to the command of the [k]-th item of [executed_batch]. *)
Definition answer (procs : Procs) (s : UpdaterTUI) (k : nat) (pkg : Package.t)
  : CompletedProcess :=
  procs (first_update_call s + k)%nat (update_argv s pkg).

(** The last line of [text] that is not blank, found from the end. *)
Definition last_nonblank_line (text : string) : option string :=
  find (λ l, Py.truthy (Py.strip l)) (rev (Py.split Py.NL text)).

(** Source priority of the catalogue order. *)
Definition priority (src : PackageSource) : nat :=
  match src with OFFICIAL => 0 | AUR => 1 | FLATPAK => 2 end.

(** An item as an adapter of source [src] creates it. *)
Definition tagged (src : PackageSource) (p : Package.t) : Prop :=
  Package.source p = src ∧ Package.selected p = true.

(** One turn of the loop that goes on, by what it did to the state. *)
Inductive transition (e : Event) (s : UpdaterTUI) : UpdaterTUI → Prop :=
| t_idle : transition e s s
| t_move delta : transition e s (move_cursor (term_height e) delta s)
| t_last :
    in_button_area s = true → mode s = SELECT →
    transition e s
      (set_scroll_offset
         (Z.max 0 (len (packages s) - visible_height (term_height e)))
         (set_cursor (len (packages s) - 1) (move_to_list s)))
| t_end :
    in_button_area s = false →
    transition e s
      (set_scroll_offset
         (Z.max 0 (len (packages s) - visible_height (term_height e)))
         (set_cursor (len (packages s) - 1) s))
| t_home :
    in_button_area s = false →
    transition e s (set_scroll_offset 0 (set_cursor 0 s))
| t_buttons :
    in_button_area s = false → mode s = SELECT →
    transition e s (move_to_buttons s)
| t_toggle s' :
    in_button_area s = false → mode s = SELECT →
    toggle_current s = Some s' → transition e s s'
| t_press s' :
    in_button_area s = true →
    activate_button s = Some (None, s') → transition e s s'
| t_update s0 :
    in_button_area s = true →
    activate_button s = Some (Some run_updates_requested, s0) →
    transition e s (run_updates (procs e) s0).

(** The cursor is on an item of a catalogue of [n] items. *)
Definition cursor_ok (n : nat) (s : UpdaterTUI) : Prop :=
  length (packages s) = n ∧ 0 ≤ cursor s ≤ Z.of_nat n - 1.

(** The cursor is inside the page shown on a terminal [h] lines high. *)
Definition window_ok (h : Z) (s : UpdaterTUI) : Prop :=
  scroll_offset s ≤ cursor s < scroll_offset s + visible_height h.

(** What keeps the two list lookups of the handlers inside their lists. *)
Definition indices_ok (s : UpdaterTUI) : Prop :=
  mode s ≠ UPDATING
  ∧ (nonempty (packages s) = true → 0 ≤ cursor s < len (packages s))
  ∧ (in_button_area s = true →
       0 ≤ button_cursor s < len (current_buttons s)).

(** The run of [events] from [s] when every turn of it ends in
    [CONFIRM] mode; [None] as soon as one does not. *)
Fixpoint stays_confirming (events : list Event) (s : UpdaterTUI)
  : option UpdaterTUI :=
  match events with
  | [] => Some s
  | e :: rest =>
      match handle_key e s with
      | Running s' =>
          match mode s' with
          | CONFIRM => stays_confirming rest s'
          | _ => None
          end
      | _ => None
      end
  end.

(** [s'] shows the same catalogue at the same place as [s]. *)
Definition same_view (s s' : UpdaterTUI) : Prop :=
  cursor s' = cursor s
  ∧ scroll_offset s' = scroll_offset s
  ∧ packages s' = packages s.

(** ** Concrete inputs *)

Definition sample_catalog : list Package.t :=
  [ Package.new "linux" "6.1-1" "6.2-1" OFFICIAL;
    Package.new "yay-bin" "12.0-1" "12.1-1" AUR;
    Package.new "org.gimp.GIMP" "installed" "2.10" FLATPAK ].

Definition ok_process : CompletedProcess :=
  {| returncode := 0; stdout := ""; stderr := Some "" |}.

Definition failed_process (err : string) : CompletedProcess :=
  {| returncode := 1; stdout := ""; stderr := Some err |}.

Definition all_succeed : Procs := λ _ _, ok_process.

(** Every command succeeds but the [n]-th call, which fails with [err]
    on its standard error. *)
Definition fails_at (n : nat) (err : string) : Procs :=
  λ k _, if (k =? n)%nat then failed_process err else ok_process.

(** A special key pressed on a terminal [h] lines high; its text, an
    escape sequence that matches no binding, is left empty. *)
Definition press (h : Z) (name : string) : Event :=
  {| term_height := h; key := Keystroke.mk (Some name) ""; procs := all_succeed |}.

(** An ordinary character typed on a terminal [h] lines high. *)
Definition typed (h : Z) (c : string) : Event :=
  {| term_height := h; key := Keystroke.mk None c; procs := all_succeed |}.

(** The sample catalogue with everything selected and a helper known,
    at the places the statements below visit. *)
Definition browsing (cur off : Z) : UpdaterTUI :=
  mkTUI sample_catalog (Some "yay") cur off SELECT false 0 [].

Definition on_button (m : Mode) (b : Z) : UpdaterTUI :=
  mkTUI sample_catalog (Some "yay") 2 0 m true b [].

Definition to_update_button : list Event :=
  [ press 24 "KEY_DOWN"; press 24 "KEY_DOWN"; press 24 "KEY_DOWN";
    press 24 "KEY_RIGHT"; press 24 "KEY_RIGHT" ].

(** Nothing selected, focus on the Update button. *)
Definition nothing_selected : UpdaterTUI :=
  mkTUI (map (Package.set_selected false) sample_catalog) (Some "yay")
        2 0 SELECT true 2 [].

Definition to_nothing_selected : list Event :=
  [ press 24 "KEY_DOWN"; press 24 "KEY_DOWN"; press 24 "KEY_DOWN";
    press 24 "KEY_RIGHT"; press 24 "KEY_ENTER"; typed 24 "j";
    press 24 "KEY_RIGHT"; press 24 "KEY_RIGHT" ].

(** ** The renderer *)

From Stdlib Require DecimalString.

Module Seq.

(** A slice bound brought into [0, n] as Python does for step 1: a
    negative bound counts from the end and stops at 0, a large one stops
    at [n]. *)
Definition adjust (n i : Z) : Z :=
  if i <? 0 then Z.max 0 (i + n) else Z.min i n.

(** [l[start:stop]] *)
Definition slice {A} (l : list A) (start stop : Z) : list A :=
  let n := Z.of_nat (length l) in
  let a := adjust n start in
  let b := adjust n stop in
  take (Z.to_nat (b - a)) (drop (Z.to_nat a) l).

(** [len(s)] of a [str] *)
Definition strlen (s : string) : Z := Z.of_nat (String.length s).

(** [s[:stop]] of a [str] *)
Definition str_upto (s : string) (stop : Z) : string :=
  substring 0 (Z.to_nat (adjust (strlen s) stop)) s.

(** [str(i)], as an f-string prints an [int]. *)
Definition str (i : Z) : string :=
  DecimalString.NilZero.string_of_int (Z.to_int i).


End Seq.

Infix "+++" := String.append (at level 60, right associativity).

Module Terminal.
(** What [draw] uses of the [blessed] terminal: its size, the two
    control strings printed first, and the formatters, which wrap a text
    in escape sequences or pad it to the middle of the line. *)
Record t := mk {
  height : Z;
  width : Z;
  home : string;
  clear : string;
  center : string → string;
  bold_cyan : string → string;
  green : string → string;
  yellow : string → string;
  blue : string → string;
  red : string → string;
  reverse : string → string;
  (** [f"{(a / b) * 100:.0f}"] for integers [a] and [b]: floating-point
      division and rounding, not computed here. *)
  percent : Z → Z → string
}.
End Terminal.

Definition CHECK : string := "✓".
Definition CROSS : string := "✗".

Definition colored_label (term : Terminal.t) (src : PackageSource) : string :=
  match src with
  | OFFICIAL => Terminal.green term "repo"
  | AUR => Terminal.yellow term "AUR"
  | FLATPAK => Terminal.blue term "flat"
  end.

Definition plain_label (src : PackageSource) : string :=
  match src with
  | OFFICIAL => "repo"
  | AUR => "AUR"
  | FLATPAK => "flat"
  end.

(** [text[:limit] if len(text) > limit else text] *)
Definition truncate (text : string) (limit : Z) : string :=
  if Seq.strlen text >? limit then Seq.str_upto text limit else text.

Definition draw_buttons (term : Terminal.t) (s : UpdaterTUI) : list string :=
  let button_strs :=
    imap (λ i btn,
            if in_button_area s && (Z.of_nat i =? button_cursor s)
            then "[" +++ Terminal.reverse term btn +++ "]"
            else "[" +++ btn +++ "]")
         (current_buttons s) in
  [Terminal.center term (join "  " button_strs)].

Definition visible_packages (term : Terminal.t) (s : UpdaterTUI)
  : list Package.t :=
  Seq.slice (packages s) (scroll_offset s)
            (scroll_offset s + visible_height (Terminal.height term)).

(** The line of one package: body of the [enumerate] loop of
    [draw_select_mode]. *)
Definition package_line (term : Terminal.t) (s : UpdaterTUI)
    (i : nat) (pkg : Package.t) : string :=
  let actual_idx := Z.of_nat i + scroll_offset s in
  let is_cursor := (actual_idx =? cursor s) && negb (in_button_area s) in
  let arrow := if is_cursor then ">" else " " in
  let checkbox := if Package.selected pkg then "[x]" else "[ ]" in
  let source_label := colored_label term (Package.source pkg) in
  let max_name_len := Terminal.width term - 25 in
  let name := truncate (Package.name pkg) max_name_len in
  " " +++ arrow +++ " " +++ checkbox +++ " " +++ source_label +++ " " +++ name.




Definition success_line (term : Terminal.t) (r : UpdateResult.t) : string :=
  " " +++ Terminal.green term CHECK +++ " ["
  +++ plain_label (UpdateResult.source r) +++ "] " +++ UpdateResult.name r.

Definition failure_line (term : Terminal.t) (r : UpdateResult.t) : string :=
  let max_err_len :=
    Terminal.width term - Seq.strlen (UpdateResult.name r) - 20 in
  let error := truncate (UpdateResult.error r) max_err_len in
  " " +++ Terminal.red term CROSS +++ " ["
  +++ plain_label (UpdateResult.source r) +++ "] " +++ UpdateResult.name r
  +++ ": " +++ error.

(** One of the two [for r in ...] loops of [draw_results_mode]: it stops
    at the first result for which [results_shown >= available_height];
    the lines printed and the counter after the loop. *)
Fixpoint show_results (line : UpdateResult.t → string) (available_height : Z)
    (rs : list UpdateResult.t) (results_shown : Z) : list string * Z :=
  match rs with
  | [] => ([], results_shown)
  | r :: rest =>
      if results_shown >=? available_height then ([], results_shown)
      else
        let '(lines, n) :=
          show_results line available_height rest (results_shown + 1) in
        (line r :: lines, n)
  end.

Definition draw_results_mode (term : Terminal.t) (s : UpdaterTUI) : list string :=
  let successes := List.filter UpdateResult.success (results s) in
  let failures :=
    List.filter (λ r, negb (UpdateResult.success r)) (results s) in
  let summary :=
    if nonempty failures then
      Terminal.center term
        (Terminal.yellow term
           (Seq.str (len successes) +++ " succeeded, "
            +++ Seq.str (len failures) +++ " failed"))
    else
      Terminal.center term
        (Terminal.green term
           ("All " +++ Seq.str (len successes) +++ " packages updated!")) in
  let available_height := visible_height (Terminal.height term) in
  let '(shown_ok, results_shown) :=
    show_results (success_line term) available_height successes 0 in
  let '(shown_failed, results_shown) :=
    show_results (failure_line term) available_height failures results_shown in
  [""; summary; ""]
  ++ shown_ok
  ++ shown_failed
  ++ repeat "" (Z.to_nat (available_height - results_shown))
  ++ [""]
  ++ draw_buttons term s.


(** ** The commands of the executor *)

(** [update_loop] with the argument vector of every [subprocess.run]
    call written to a log. *)
Definition update_loop_logged (procs : Procs) (argv : Package.t → list string)
    (pkgs : list Package.t) (st : list UpdateResult.t * list (list string))
  : list UpdateResult.t * list (list string) :=
  fold_left
    (λ st pkg,
       (st.1 ++ [record_result pkg (procs (length st.2) (argv pkg))],
        st.2 ++ [argv pkg]))
    pkgs st.

(** [run_updates] with the same log: the state it returns and every
    command it ran, in order. *)
Definition run_updates_logged (procs : Procs) (s : UpdaterTUI)
  : UpdaterTUI * list (list string) :=
  let s := set_mode UPDATING s in
  let selected := List.filter Package.selected (packages s) in
  let official := from_source OFFICIAL selected in
  let aur := from_source AUR selected in
  let flatpaks := from_source FLATPAK selected in
  let st : list UpdateResult.t * list (list string) := ([], []) in
  let pacman_pkgs := official ++ aur in
  let st :=
    if nonempty pacman_pkgs && Py.truthy_opt (aur_helper s) then
      let helper := default "" (aur_helper s) in
      let st := (st.1, st.2 ++ [[helper; "-Sy"]]) in
      update_loop_logged procs (pacman_argv helper) pacman_pkgs st
    else st in
  let st :=
    if nonempty flatpaks then update_loop_logged procs flatpak_argv flatpaks st
    else st in
  let st := (st.1, st.2 ++ [["pkill"; "-RTMIN+1"; "waybar"]]) in
  let s := set_results st.1 s in
  (set_button_cursor 0 (set_in_button_area true (set_mode RESULTS s)), st.2).

(** ** Vocabulary of the further statements *)

(** The fields of an item that no handler writes. *)
Definition identity_of (p : Package.t) : string * string * string * PackageSource :=
  (Package.name p, Package.current_version p, Package.new_version p,
   Package.source p).

(** The rows of the select frame that carry the cursor arrow. *)
Definition arrow_rows (term : Terminal.t) (s : UpdaterTUI) : list string :=
  List.filter (λ line, match String.get 1 line with
                       | Some c => Ascii.eqb c ">"
                       | None => false
                       end)
              (imap (package_line term s) (visible_packages term s)).

(** The buttons drawn reversed, by position. *)
Definition highlighted_buttons (s : UpdaterTUI) : list nat :=
  List.filter (λ i, in_button_area s && (Z.of_nat i =? button_cursor s))
              (seq 0 (length (current_buttons s))).

(** A terminal as the tests below need it: no colours, no centring. *)
Definition plain_terminal (h w : Z) : Terminal.t :=
  Terminal.mk h w "" "" id id id id id id id (λ _ _, "0").

(** The scroll offset is on a page of a catalogue of [n] items shown on
    a terminal [h] lines high: never negative, never past the last full
    page. *)
Definition scroll_ok (n : nat) (h : Z) (s : UpdaterTUI) : Prop :=
  0 ≤ scroll_offset s ≤ Z.max 0 (Z.of_nat n - visible_height h).

(** Where the focus is, by mode. *)
Definition focus_ok (s : UpdaterTUI) : Prop :=
  mode s ≠ UPDATING
  ∧ (mode s = CONFIRM → in_button_area s = true)
  ∧ (mode s = RESULTS → in_button_area s = true ∧ button_cursor s = 0).

(** Where [self.results] comes from: empty until a report is shown, and
    then what one [run_updates] over the catalogue on screen left. *)
Definition results_ok (s : UpdaterTUI) : Prop :=
  (mode s ≠ RESULTS → results s = [])
  ∧ (mode s = RESULTS →
       ∃ procs s0, packages s0 = packages s ∧ aur_helper s0 = aur_helper s
                   ∧ results s = results (run_updates procs s0)).

(** The database sync that opens the pacman batch, when that batch
    runs. *)
Definition sync_argv (s : UpdaterTUI) : list (list string) :=
  if nonempty (pacman_batch s) && Py.truthy_opt (aur_helper s)
  then [[default "" (aur_helper s); "-Sy"]] else [].

(** The signal that makes waybar refresh its update counter. *)
Definition refresh_argv : list string := ["pkill"; "-RTMIN+1"; "waybar"].

(** The shape of an item as an adapter can build it: whitespace-free,
    non-empty fields from [str.split()]; a stripped, non-empty name and
    the fixed current version from the flatpak listing. *)
Definition well_formed (p : Package.t) : Prop :=
  match Package.source p with
  | FLATPAK =>
      Package.name p ≠ "" ∧ Py.strip (Package.name p) = Package.name p
      ∧ Package.current_version p = "installed"
  | OFFICIAL | AUR =>
      is_field (Package.name p) ∧ is_field (Package.current_version p)
      ∧ is_field (Package.new_version p)
  end.

(** How many of [rs] a loop of [draw_results_mode] prints when [shown]
    rows are on the page already. *)
Definition rows_that_fit (avail shown : Z) (rs : list UpdateResult.t) : nat :=
  Z.to_nat (Z.min (len rs) (Z.max 0 (avail - shown))).

(** The first page of the report: the lines of the successes, then the
    lines of the failures, cut at the page size. *)
Definition result_rows (term : Terminal.t) (s : UpdaterTUI) : list string :=
  take (Z.to_nat (visible_height (Terminal.height term)))
       (map (success_line term) (List.filter UpdateResult.success (results s))
        ++ map (failure_line term)
             (List.filter (λ r, negb (UpdateResult.success r)) (results s))).

(** The row of an item with [arrow] in its arrow column. *)
Definition item_row (term : Terminal.t) (arrow : string) (pkg : Package.t)
  : string :=
  " " +++ arrow +++ " " +++ (if Package.selected pkg then "[x]" else "[ ]")
  +++ " " +++ colored_label term (Package.source pkg)
  +++ " " +++ truncate (Package.name pkg) (Terminal.width term - 25).

(** A button without and with the focus. *)
Definition plain_button (btn : string) : string := "[" +++ btn +++ "]".

Definition focused_button (term : Terminal.t) (btn : string) : string :=
  "[" +++ Terminal.reverse term btn +++ "]".

(** The keys that update the whole sample catalogue, and the report
    they end in. *)
Definition to_report : list Event :=
  to_update_button ++ [press 24 "KEY_ENTER"; press 24 "KEY_ENTER"].

Definition reported : UpdaterTUI :=
  mkTUI sample_catalog (Some "yay") 2 0 RESULTS true 0
        (map (λ p, UpdateResult.mk (Package.name p) (Package.source p) true "")
             sample_catalog).

(** ** Tactics *)

(** Case analysis on a transition, with the names the proofs use. *)
Ltac by_transition Ht :=
  destruct Ht as [ |delta|Hb Hs|Hb|Hb|Hb Hs|s' Hb Hs Htog|s' Hb Hact|s0 Hb Hact].

Ltac bool_to_Z :=
  repeat match goal with
  | H : (_ <? _) = true |- _ => apply Z.ltb_lt in H
  | H : (_ <? _) = false |- _ => apply Z.ltb_ge in H
  | H : (_ <=? _) = true |- _ => apply Z.leb_le in H
  | H : (_ <=? _) = false |- _ => apply Z.leb_gt in H
  | H : (_ >=? _) = true |- _ => rewrite Z.geb_leb in H
  | H : (_ >=? _) = false |- _ => rewrite Z.geb_leb in H
  | H : (_ =? _) = true |- _ => apply Z.eqb_eq in H
  | H : (_ =? _) = false |- _ => apply Z.eqb_neq in H
  end.

(** * Theorems *)

(** ** The model on the scenarios of the specification *)

Example split_ws_listing_line :
  Py.split_ws "  linux 6.1-1 -> 6.2-1 " = ["linux"; "6.1-1"; "->"; "6.2-1"].
Proof. reflexivity. Qed.

Example split_keeps_empty_pieces :
  Py.split Py.TAB "org.gimp.GIMP" = ["org.gimp.GIMP"]
  ∧ Py.split "," "a,,b," = ["a"; ""; "b"; ""].
Proof. split; reflexivity. Qed.

Example strip_both_ends : Py.strip "  error: x  " = "error: x".
Proof. reflexivity. Qed.

(** Page size 5, twelve items, End pressed: the offset is 7. *)
Example end_key_scenario :
  let pkgs := repeat (Package.new "p" "1" "2" OFFICIAL) 12 in
  ∃ s, run [press 15 "KEY_END"] (init pkgs None) = Running s
       ∧ cursor s = 11 ∧ scroll_offset s = 7.
Proof. eexists. split; [reflexivity|]. split; reflexivity. Qed.

(** [toggle(1)] on pkgA (selected) and pkgB (not selected): both are
    selected afterwards, in the original order. *)
Example toggle_scenario :
  let pkgA := Package.mk "pkgA" "1" "2" OFFICIAL true in
  let pkgB := Package.mk "pkgB" "1" "2" AUR false in
  ∃ s, toggle_current (set_cursor 1 (init [pkgA; pkgB] None)) = Some s
       ∧ map Package.name (selected_items s) = ["pkgA"; "pkgB"].
Proof. eexists. split; reflexivity. Qed.

(** Standard error "error: network unreachable" and a newline. *)
Example network_unreachable_scenario :
  last_error (Some (String.append "error: network unreachable"
                                  (String Py.NL "")))
  = "error: network unreachable".
Proof. reflexivity. Qed.

Example key_bindings :
  binding (Keystroke.mk None "W") = Up
  ∧ binding (Keystroke.mk None "k") = Up
  ∧ binding (Keystroke.mk None "j") = Down
  ∧ binding (Keystroke.mk None " ") = Space
  ∧ binding (Keystroke.mk None "Q") = Quit
  ∧ binding (Keystroke.mk (Some "KEY_ENTER") "") = Enter
  ∧ binding (Keystroke.mk None "x") = Unbound.
Proof. repeat split; reflexivity. Qed.

(** ** Python string primitives *)

Lemma split_nonempty sep s : Py.split sep s ≠ [].
Proof. destruct s as [|c s]; simpl; [done|]. repeat case_match; done. Qed.

(** Splitting at a separator loses nothing: joining the pieces with the
    separator gives the string back, and no piece holds the separator. *)
Lemma split_join sep s :
  join (String sep "") (Py.split sep s) = s
  ∧ Forall (λ piece, has_char sep piece = false) (Py.split sep s).
Proof.
  induction s as [|c s IH]; simpl.
  - split; [done|]. by repeat constructor.
  - destruct IH as [IHj IHf].
    destruct (Ascii.eqb_spec c sep) as [->|Hne].
    + pose proof (split_nonempty sep s) as Hs.
      destruct (Py.split sep s) as [|w ws] eqn:Heq; [done|].
      split; [|by constructor].
      change (join (String sep "") ("" :: w :: ws))
        with (String sep (join (String sep "") (w :: ws))).
      by rewrite IHj.
    + destruct (Py.split sep s) as [|w ws] eqn:Heq.
      { by destruct (split_nonempty sep s). }
      apply Forall_cons in IHf as [Hw Hws]. split.
      * destruct ws as [|w' ws]; simpl in *; by rewrite IHj.
      * constructor; [|done]. simpl. rewrite Hw.
        by destruct (Ascii.eqb_spec c sep).
Qed.

Lemma split_without_sep sep s : has_char sep s = false → Py.split sep s = [s].
Proof.
  induction s as [|c s IH]; simpl; [done|].
  intros [Hc Hs]%orb_false_iff. rewrite Hc. by rewrite IH.
Qed.

(** What [str.split()] returns are fields. *)
Lemma split_ws_fields s : Forall is_field (Py.split_ws s).
Proof.
  induction s as [|c s IH]; simpl; [constructor|].
  destruct (Py.isspace c) eqn:Hc; [done|].
  destruct s as [|c' s].
  - constructor; [|constructor]. split; [done|]. simpl. by rewrite Hc.
  - destruct (Py.isspace c') eqn:Hc'.
    + constructor; [|done]. split; [done|]. simpl. by rewrite Hc.
    + destruct (Py.split_ws (String c' s)) as [|w ws] eqn:Hs.
      * constructor; [|constructor]. split; [done|]. simpl. by rewrite Hc.
      * inversion IH as [|? ? [Hw1 Hw2] Hws]; subst.
        constructor; [|done]. split; [done|]. simpl. by rewrite Hc, Hw2.
Qed.

Lemma split_ws_field_then_space w c s :
  is_field w → Py.isspace c = true →
  Py.split_ws (String.append w (String c s)) = w :: Py.split_ws s.
Proof.
  intros [Hne Hns] Hc. induction w as [|a w IH]; [done|].
  simpl in Hns. apply andb_true_iff in Hns as [Ha%negb_true_iff Hw].
  cbn [String.append Py.split_ws]. rewrite Ha.
  destruct w as [|b w].
  - cbn [String.append]. rewrite Hc. cbn [Py.split_ws]. by rewrite Hc.
  - cbn [String.append]. cbn [String.append] in IH.
    simpl in Hw. apply andb_true_iff in Hw as Hw'.
    destruct Hw' as [Hb%negb_true_iff Hw'].
    rewrite Hb. rewrite IH; [done|done|]. simpl. by rewrite Hb.
Qed.

Lemma split_ws_field w : is_field w → Py.split_ws w = [w].
Proof.
  intros [Hne Hns]. induction w as [|a w IH]; [done|].
  simpl in Hns. apply andb_true_iff in Hns as [Ha%negb_true_iff Hw].
  cbn [Py.split_ws]. rewrite Ha.
  destruct w as [|b w]; [done|].
  simpl in Hw. apply andb_true_iff in Hw as Hw'.
  destruct Hw' as [Hb%negb_true_iff Hw'].
  rewrite Hb. rewrite IH; [done|done|]. simpl. by rewrite Hb.
Qed.

(** Fields written with one space between them are read back as they
    were written. *)
Lemma split_ws_join fields :
  Forall is_field fields → Py.split_ws (join " " fields) = fields.
Proof.
  induction 1 as [|w rest Hw Hrest IH]; [done|].
  destruct rest as [|w' rest].
  - by apply split_ws_field.
  - change (join " " (w :: w' :: rest))
      with (String.append w (String " " (join " " (w' :: rest)))).
    rewrite split_ws_field_then_space by done. by rewrite IH.
Qed.

Lemma strip_field w : is_field w → Py.strip w = w.
Proof.
  intros [Hne Hns]. unfold Py.strip.
  assert (Hl : Py.lstrip w = w).
  { destruct w as [|c w]; [done|]. simpl in *.
    apply andb_true_iff in Hns as [Ha%negb_true_iff _]. by rewrite Ha. }
  rewrite Hl. clear Hl Hne. induction w as [|c w IH]; [done|].
  simpl in *. apply andb_true_iff in Hns as [Ha%negb_true_iff Hw].
  rewrite IH by done. rewrite Ha. by destruct w.
Qed.

Lemma field_has_no_tab w : no_space w = true → has_char Py.TAB w = false.
Proof.
  induction w as [|c w IH]; simpl; [done|].
  intros [Hc%negb_true_iff Hw]%andb_true_iff. rewrite IH by done.
  destruct (Ascii.eqb_spec c Py.TAB) as [->|]; [done|done].
Qed.

(** ** Source adapters *)

Lemma official_line_tagged line p :
  official_line line = Some p → tagged OFFICIAL p.
Proof. unfold official_line. case_match; intros; simplify_eq; by split. Qed.

Lemma aur_line_tagged line p : aur_line line = Some p → tagged AUR p.
Proof. unfold aur_line. repeat case_match; intros; simplify_eq; by split. Qed.

Lemma flatpak_line_tagged line p :
  flatpak_line line = Some p → tagged FLATPAK p.
Proof.
  unfold flatpak_line. repeat case_match; intros; simplify_eq; by split.
Qed.

Lemma parse_listing_Forall (P : Package.t → Prop) body r :
  (∀ line p, body line = Some p → P p) → Forall P (parse_listing body r).
Proof.
  intros Hbody. unfold parse_listing.
  destruct r as [p| |]; try by constructor.
  case_match; [|by constructor].
  apply Forall_forall. intros x [line [_ Hx]]%list_elem_of_omap. eauto.
Qed.

(** An item is fetched exactly when some line of the stripped listing
    decodes to it. *)
Lemma parse_listing_elem body p pkg :
  returncode p = 0 → Py.truthy (Py.strip (stdout p)) = true →
  pkg ∈ parse_listing body (Completed p)
  ↔ ∃ line, line ∈ Py.split Py.NL (Py.strip (stdout p))
            ∧ body line = Some pkg.
Proof.
  intros Hrc Hout. unfold parse_listing. rewrite Hrc, Hout. simpl.
  apply list_elem_of_omap.
Qed.

(** C2 (amended).  What one line of a listing contributes, by its
    fields.  Official repo: an item from fields 0, 1 and 3 when there are
    four or more whitespace-separated fields, nothing otherwise.  AUR
    helper: the same item with four or more fields; with two or three
    fields an item with the current version of field 1 and the new
    version "?"; nothing with fewer than two fields, a lone name
    included.  Flatpak: with tab-separated columns, an item whenever the
    stripped first column is not empty, its new version the stripped
    second column, or "?" when there is no second column; nothing when
    the first column is blank. *)
Theorem line_decoding (line : string) :
  match Py.split_ws line with
  | name :: current :: _ :: new :: _ =>
      official_line line = Some (Package.mk name current new OFFICIAL true)
      ∧ aur_line line = Some (Package.mk name current new AUR true)
  | name :: current :: _ =>
      official_line line = None
      ∧ aur_line line = Some (Package.mk name current "?" AUR true)
  | _ => official_line line = None ∧ aur_line line = None
  end
  ∧ match Py.split Py.TAB line with
    | column :: rest =>
        let new_version :=
          match rest with version :: _ => Py.strip version | [] => "?" end in
        flatpak_line line =
          if Py.truthy (Py.strip column)
          then Some (Package.mk (Py.strip column) "installed" new_version
                                FLATPAK true)
          else None
    | [] => False
    end.
Proof.
  split.
  - unfold official_line, aur_line.
    destruct (Py.split_ws line) as [|f0 [|f1 [|f2 [|f3 rest]]]]; done.
  - unfold flatpak_line. pose proof (split_nonempty Py.TAB line) as Hne.
    destruct (Py.split Py.TAB line) as [|c0 [|c1 rest]]; done.
Qed.

(** C2, as stated, fails: an AUR line that carries a name and nothing
    else is below the minimum with a name present, and no item comes out
    of it, not a partial one with "?". *)
Lemma aur_name_only_dropped :
  Py.split_ws "ttf-hack" = ["ttf-hack"]
  ∧ aur_line "ttf-hack" = None
  ∧ get_aur_updates
      (Completed {| returncode := 0; stdout := "ttf-hack"; stderr := None |})
    = [].
Proof. repeat split; reflexivity. Qed.

(** The listings as the tools print them: "name old -> new" for
    checkupdates and the helper, "name old" where the helper knows no new
    version, a lone application id where flatpak prints no version. *)
Lemma listing_shapes (name current arrow new : string) :
  is_field name → is_field current → is_field arrow → is_field new →
  official_line (join " " [name; current; arrow; new])
    = Some (Package.mk name current new OFFICIAL true)
  ∧ aur_line (join " " [name; current; arrow; new])
    = Some (Package.mk name current new AUR true)
  ∧ official_line (join " " [name; current]) = None
  ∧ aur_line (join " " [name; current])
    = Some (Package.mk name current "?" AUR true)
  ∧ official_line name = None
  ∧ aur_line name = None
  ∧ flatpak_line name = Some (Package.mk name "installed" "?" FLATPAK true).
Proof.
  intros Hn Hc Ha Hv.
  unfold official_line, aur_line, flatpak_line.
  rewrite !split_ws_join
    by (repeat first [apply List.Forall_cons; [assumption|] | apply List.Forall_nil]).
  rewrite split_ws_field by done.
  rewrite split_without_sep by (apply field_has_no_tab, Hn).
  simpl. rewrite strip_field by done.
  repeat split; try done. destruct Hn as [Hne _]. by destruct name.
Qed.

(** ** The gathering pass of [main] *)

Lemma detect_aur_helper_truthy env h :
  detect_aur_helper env = Some h → Py.truthy h = true.
Proof.
  unfold detect_aur_helper. simpl.
  repeat case_match; intros; simplify_eq; done.
Qed.

(** Which of the three stretches of [official ++ aur ++ flatpak] an
    index falls in decides the source of the item there. *)
Lemma stretch_source (official aur flatpak : list Package.t) k x :
  Forall (tagged OFFICIAL) official →
  Forall (tagged AUR) aur →
  Forall (tagged FLATPAK) flatpak →
  (official ++ aur ++ flatpak) !! k = Some x →
  ((k < length official)%nat ∧ Package.source x = OFFICIAL)
  ∨ ((length official ≤ k < length official + length aur)%nat
     ∧ Package.source x = AUR)
  ∨ ((length official + length aur ≤ k)%nat ∧ Package.source x = FLATPAK).
Proof.
  rewrite !Forall_forall. intros Ho Ha Hf Hk.
  apply lookup_app_Some in Hk as [Hk|[Hlen Hk]].
  - left. split; [by eapply lookup_lt_Some|].
    apply Ho. by eapply list_elem_of_lookup_2.
  - apply lookup_app_Some in Hk as [Hk|[Hlen' Hk]].
    + right; left. apply lookup_lt_Some in Hk as Hlt. split; [lia|].
      apply Ha. by eapply list_elem_of_lookup_2.
    + right; right. split; [lia|].
      apply Hf. by eapply list_elem_of_lookup_2.
Qed.

(** C8.  The catalogue [main] builds is the official-repo items, then
    the AUR items (none when no helper was detected), then the flatpak
    items, each adapter's result kept as it is; each stretch carries its
    own source tag, so sources never go down in priority along the
    catalogue; and every item is selected. *)
Theorem gather_packages_aggregates (env : Env) :
  let official := get_official_updates (checkupdates env) in
  let aur :=
    match detect_aur_helper env with
    | Some helper => get_aur_updates (helper_Qum env helper)
    | None => []
    end in
  let flatpak :=
    get_flatpak_updates (which env "flatpak") (flatpak_remote_ls env) in
  gather_packages env = official ++ aur ++ flatpak
  ∧ Forall (λ p, Package.source p = OFFICIAL) official
  ∧ Forall (λ p, Package.source p = AUR) aur
  ∧ Forall (λ p, Package.source p = FLATPAK) flatpak
  ∧ Forall (λ p, Package.selected p = true) (gather_packages env)
  ∧ (∀ i j p q, (i ≤ j)%nat →
       gather_packages env !! i = Some p →
       gather_packages env !! j = Some q →
       (priority (Package.source p) ≤ priority (Package.source q))%nat).
Proof.
  intros official aur flatpak.
  assert (Ho : Forall (tagged OFFICIAL) official)
    by (apply parse_listing_Forall, official_line_tagged).
  assert (Ha : Forall (tagged AUR) aur).
  { subst aur. destruct (detect_aur_helper env); [|by constructor].
    apply parse_listing_Forall, aur_line_tagged. }
  assert (Hf : Forall (tagged FLATPAK) flatpak).
  { subst flatpak. unfold get_flatpak_updates. case_match; [by constructor|].
    apply parse_listing_Forall, flatpak_line_tagged. }
  assert (Heq : gather_packages env = official ++ aur ++ flatpak).
  { unfold gather_packages. subst official aur flatpak. simpl.
    pose proof (detect_aur_helper_truthy env) as Hh.
    destruct (detect_aur_helper env) as [h|].
    - rewrite (Hh h eq_refl). by rewrite <- app_assoc.
    - by rewrite app_nil_l. }
  split; [done|]. rewrite Heq.
  split; [eapply Forall_impl; [exact Ho|by intros ? []]|].
  split; [eapply Forall_impl; [exact Ha|by intros ? []]|].
  split; [eapply Forall_impl; [exact Hf|by intros ? []]|].
  split.
  - rewrite !Forall_app.
    repeat split; (eapply Forall_impl; [eassumption|by intros ? []]).
  - intros i j p q Hij Hp Hq.
    destruct (stretch_source _ _ _ _ _ Ho Ha Hf Hp) as [[? ->]|[[? ->]|[? ->]]],
             (stretch_source _ _ _ _ _ Ho Ha Hf Hq) as [[? ->]|[[? ->]|[? ->]]];
      simpl; lia.
Qed.

(** ** Catalogue operations *)

Lemma flip_selected_involutive p : flip_selected (flip_selected p) = p.
Proof.
  destruct p as [n c v src b]. unfold flip_selected, Package.set_selected.
  simpl. by rewrite negb_involutive.
Qed.

Lemma index_in_range {A} (l : list A) (i : nat) :
  (i < length l)%nat → Py.index l (Z.of_nat i) = Some i.
Proof.
  intros Hi. unfold Py.index.
  destruct (Z.leb_spec 0 (Z.of_nat i)); [|lia].
  destruct (Z.ltb_spec (Z.of_nat i) (Z.of_nat (length l))); [|lia].
  simpl. by rewrite Nat2Z.id.
Qed.

Lemma nonempty_length {A} (l : list A) :
  nonempty l = true ↔ (0 < length l)%nat.
Proof. destruct l; simpl; split; intros; try done; lia. Qed.

Lemma nonempty_false {A} (l : list A) : nonempty l = false → l = [].
Proof. by destruct l. Qed.

(** C7.  With the focus on the list and the cursor on a valid index
    [i], [toggle_current] negates the [selected] flag of item [i] and
    keeps its other fields, keeps every other item, the length of the
    catalogue, the cursor and the rest of the view, and a second toggle
    gives back the state it started from. *)
Theorem toggle_current_involution (s : UpdaterTUI) (i : nat) :
  in_button_area s = false →
  cursor s = Z.of_nat i →
  (i < length (packages s))%nat →
  ∃ s', toggle_current s = Some s'
    ∧ (∀ p, packages s !! i = Some p →
         packages s' !! i =
           Some (Package.mk (Package.name p) (Package.current_version p)
                   (Package.new_version p) (Package.source p)
                   (negb (Package.selected p))))
    ∧ (∀ j, j ≠ i → packages s' !! j = packages s !! j)
    ∧ length (packages s') = length (packages s)
    ∧ cursor s' = cursor s
    ∧ scroll_offset s' = scroll_offset s
    ∧ mode s' = mode s
    ∧ in_button_area s' = in_button_area s
    ∧ button_cursor s' = button_cursor s
    ∧ toggle_current s' = Some s.
Proof.
  intros Hb Hc Hi.
  assert (Hne : nonempty (packages s) = true) by (apply nonempty_length; lia).
  unfold toggle_current. rewrite Hb, Hne, Hc, index_in_range by done. simpl.
  eexists; split; [reflexivity|].
  simpl. rewrite Hb, Hc. repeat split.
  - intros p Hp. by rewrite list_lookup_alter_eq, Hp.
  - intros j Hj. by rewrite list_lookup_alter_ne.
  - by rewrite length_alter.
  - assert (Hne' : nonempty (alter flip_selected i (packages s)) = true)
      by (apply nonempty_length; rewrite length_alter; lia).
    rewrite Hne'. simpl. rewrite index_in_range by (by rewrite length_alter).
    simpl. unfold set_packages; simpl.
    rewrite list_alter_alter_eq.
    rewrite list_alter_id by (intros; apply flip_selected_involutive).
    destruct s; simpl in *; by subst.
Qed.

Lemma toggle_current_involution_witness :
  ∃ s', toggle_current (browsing 1 0) = Some s'
    ∧ map Package.selected (packages s') = [true; false; true]
    ∧ cursor s' = 1
    ∧ toggle_current s' = Some (browsing 1 0).
Proof.
  destruct (toggle_current_involution (browsing 1 0) 1)
    as (s' & Ht & Hi & Hj & _ & Hc & _ & _ & _ & _ & Hback);
    [reflexivity | reflexivity | simpl; lia |].
  exists s'. split; [exact Ht|]. split; [|split; [exact Hc | exact Hback]].
  apply list_eq. intros [|[|[|k]]]; rewrite !list_lookup_fmap.
  - by rewrite (Hj 0%nat).
  - by rewrite (Hi _ eq_refl).
  - by rewrite (Hj 2%nat).
  - by rewrite (Hj (S (S (S k)))).
Defined.

(** X2.  [select_all] and [deselect_all]: each is idempotent, and after
    [deselect_all] nothing is selected whatever was selected before. *)
Lemma select_all_deselect_all (s : UpdaterTUI) :
  selected_count (deselect_all (select_all s)) = 0%nat
  ∧ select_all (select_all s) = select_all s
  ∧ deselect_all (deselect_all s) = deselect_all s
  ∧ selected_count (select_all s) = length (packages s).
Proof.
  unfold selected_count, selected_items, select_all, deselect_all, set_packages.
  simpl. rewrite !map_map. simpl. repeat split.
  - induction (packages s) as [|p l IH]; simpl; done.
  - induction (packages s) as [|p l IH]; simpl; [done|]. by rewrite IH.
Qed.

(** ** The update executor *)

Lemma from_source_spec src l p :
  p ∈ from_source src l ↔ p ∈ l ∧ Package.source p = src.
Proof.
  unfold from_source. rewrite !list_elem_of_In, filter_In.
  destruct (Package.source p), src; simpl; intuition congruence.
Qed.

Lemma record_result_name pkg ans :
  UpdateResult.name (record_result pkg ans) = Package.name pkg.
Proof. unfold record_result. by case_match. Qed.

Lemma record_result_source pkg ans :
  UpdateResult.source (record_result pkg ans) = Package.source pkg.
Proof. unfold record_result. by case_match. Qed.

Lemma record_result_success pkg ans :
  UpdateResult.success (record_result pkg ans) = (returncode ans =? 0).
Proof. unfold record_result. by destruct (returncode ans =? 0). Qed.

Lemma filter_all_false {A} (f : A → bool) l :
  (∀ x, x ∈ l → f x = false) → List.filter f l = [].
Proof.
  induction l as [|x l IH]; intros H; simpl; [done|].
  rewrite (H x) by constructor. apply IH. intros y Hy. apply H. by constructor.
Qed.

(** The three source filters split a list: nothing is lost and nothing
    is taken twice. *)
Lemma from_source_partition l :
  (length (from_source OFFICIAL l) + length (from_source AUR l)
   + length (from_source FLATPAK l))%nat = length l.
Proof.
  unfold from_source. induction l as [|p l IH]; simpl; [done|].
  destruct (Package.source p); simpl; lia.
Qed.

(** With a helper known every selected item is executed, once. *)
Lemma executed_batch_with_helper s :
  Py.truthy_opt (aur_helper s) = true →
  length (executed_batch s) = selected_count s
  ∧ ∀ p, p ∈ executed_batch s ↔ p ∈ selected_items s.
Proof.
  intros Hh. unfold executed_batch, pacman_batch, flatpak_batch, selected_count.
  rewrite Hh. split.
  - rewrite !length_app. apply from_source_partition.
  - intros p. rewrite !elem_of_app, !from_source_spec.
    destruct (Package.source p); intuition congruence.
Qed.

(** A list in which the test holds at position [k0] and nowhere else
    has exactly one element passing the test. *)
Lemma filter_single {A} (f : A → bool) (l : list A) (k0 : nat) :
  (k0 < length l)%nat →
  (∀ k x, l !! k = Some x → f x = bool_decide (k = k0)) →
  length (List.filter f l) = 1%nat.
Proof.
  revert k0. induction l as [|x l IH]; intros k0 Hlt H; simpl in *; [lia|].
  destruct k0 as [|k0].
  - rewrite (H 0%nat x eq_refl). simpl.
    rewrite filter_all_false; [done|].
    intros y [k Hk]%list_elem_of_lookup_1. by rewrite (H (S k) y Hk).
  - rewrite (H 0%nat x eq_refl). simpl.
    apply (IH k0); [lia|]. intros k y Hk. rewrite (H (S k) y Hk).
    apply bool_decide_ext. lia.
Qed.

(** The pipeline of [last_error] finds the last non-blank line and
    strips it. *)
Lemma last_error_spec (err : option string) :
  last_error err =
    match last_nonblank_line (default "" err) with
    | Some l => Py.strip l
    | None => "Unknown error"
    end.
Proof.
  unfold last_error, last_nonblank_line.
  generalize (Py.split Py.NL (default "" err)). intros lines.
  induction lines as [|l lines IH] using rev_ind; [done|].
  rewrite List.filter_app, map_app, rev_app_distr. simpl.
  destruct (Py.truthy (Py.strip l)); simpl.
  - by rewrite last_last.
  - by rewrite app_nil_r.
Qed.

Section Executor.

Context (procs : Procs) (s : UpdaterTUI).

(** The loop appends one result per item, in order, and numbers its
    subprocess calls consecutively. *)
Lemma update_loop_spec argv pkgs res n :
  update_loop procs argv pkgs (res, n) =
    (res ++ imap (λ i pkg, record_result pkg (procs (n + i)%nat (argv pkg))) pkgs,
     (n + length pkgs)%nat).
Proof.
  unfold update_loop. revert res n.
  induction pkgs as [|pkg pkgs IH]; intros res n; simpl.
  - by rewrite app_nil_r, Nat.add_0_r.
  - rewrite IH. f_equal; [|lia].
    rewrite <- app_assoc. simpl. rewrite Nat.add_0_r. do 2 f_equal.
    apply imap_ext. intros i x _. simpl. do 2 f_equal. lia.
Qed.

Lemma pacman_batch_argv pkg :
  pkg ∈ pacman_batch s →
  pacman_argv (default "" (aur_helper s)) pkg = update_argv s pkg.
Proof.
  unfold pacman_batch, update_argv.
  intros [[_ ->]%from_source_spec|[_ ->]%from_source_spec]%elem_of_app; done.
Qed.

Lemma flatpak_batch_argv pkg :
  pkg ∈ flatpak_batch s → flatpak_argv pkg = update_argv s pkg.
Proof.
  unfold flatpak_batch, update_argv. by intros [_ ->]%from_source_spec.
Qed.

Local Ltac same_results :=
  apply imap_ext; intros ? ? ?%list_elem_of_lookup_2;
  rewrite ?pacman_batch_argv, ?flatpak_batch_argv by done;
  do 2 f_equal; lia.

(** The result list of [run_updates]: one entry per executed item, in
    the order of [executed_batch], made from the answer to that item's
    command. *)
Lemma run_updates_results :
  results (run_updates procs s) =
    imap (λ k pkg, record_result pkg (answer procs s k pkg)) (executed_batch s).
Proof.
  unfold run_updates, executed_batch, answer, first_update_call. simpl.
  fold (selected_items s). fold (flatpak_batch s). fold (pacman_batch s).
  destruct (nonempty (pacman_batch s)) eqn:Hne;
    destruct (Py.truthy_opt (aur_helper s)) eqn:Hh;
    destruct (nonempty (flatpak_batch s)) eqn:Hnf;
    cbn [andb fst snd]; rewrite ?update_loop_spec; cbn [fst snd];
    try apply nonempty_false in Hne as Hne';
    try apply nonempty_false in Hnf as Hnf';
    rewrite ?Hne', ?Hnf', ?app_nil_r, ?app_nil_l, ?imap_app; try done;
    first [ done | same_results | apply (f_equal2 app); same_results ].
Qed.

(** C3.  Take any run of the executor in which the command of exactly
    one executed item, the [k0]-th, exits with a non-zero status and the
    command of every other executed item exits with status 0.  Then the
    result list names the executed items in batch order (selected repo
    items, then selected AUR items, each in catalogue order, then the
    selected flatpak items), the entry at [k0] has [success = false],
    every other entry has [success = true], and so exactly one entry is
    a failure. *)
Theorem one_failure_one_failed_entry (k0 : nat) :
  (k0 < length (executed_batch s))%nat →
  (∀ k pkg, executed_batch s !! k = Some pkg →
     (returncode (answer procs s k pkg) = 0 ↔ k ≠ k0)) →
  let rs := results (run_updates procs s) in
  map UpdateResult.name rs = map Package.name (executed_batch s)
  ∧ map UpdateResult.source rs = map Package.source (executed_batch s)
  ∧ (∀ k r, rs !! k = Some r →
       UpdateResult.success r = negb (bool_decide (k = k0)))
  ∧ length (List.filter (λ r, negb (UpdateResult.success r)) rs) = 1%nat.
Proof.
  intros Hk0 Hans rs. subst rs. rewrite run_updates_results.
  assert (Hs : ∀ k r,
    imap (λ k pkg, record_result pkg (answer procs s k pkg))
         (executed_batch s) !! k = Some r →
    UpdateResult.success r = negb (bool_decide (k = k0))).
  { intros k r (pkg & Hpkg & ->)%list_lookup_imap_Some.
    rewrite record_result_success. specialize (Hans k pkg Hpkg).
    case_bool_decide; simpl.
    - apply Z.eqb_neq. tauto.
    - apply Z.eqb_eq. tauto. }
  repeat split.
  - apply list_eq. intros k. rewrite !list_lookup_fmap, list_lookup_imap.
    destruct (executed_batch s !! k); simpl; [|done].
    by rewrite record_result_name.
  - apply list_eq. intros k. rewrite !list_lookup_fmap, list_lookup_imap.
    destruct (executed_batch s !! k); simpl; [|done].
    by rewrite record_result_source.
  - exact Hs.
  - apply (filter_single _ _ k0); [by rewrite length_imap|].
    intros k r Hr. rewrite (Hs k r Hr). by rewrite negb_involutive.
Qed.

(** C4.  With no AUR helper, [run_updates] produces exactly the results
    of the flatpak loop run on the selected flatpak items, one per item
    and in their order, from the answers to the flatpak commands; no
    result belongs to a repo or AUR item. *)
Theorem no_helper_only_flatpak :
  Py.truthy_opt (aur_helper s) = false →
  let rs := results (run_updates procs s) in
  rs = imap (λ k pkg, record_result pkg (procs k (flatpak_argv pkg)))
            (flatpak_batch s)
  ∧ length rs = length (flatpak_batch s)
  ∧ List.filter
      (λ r, negb (PackageSource_eqb (UpdateResult.source r) FLATPAK)) rs = [].
Proof.
  intros Hh rs.
  assert (Hrs : rs = imap (λ k pkg, record_result pkg (procs k (flatpak_argv pkg)))
            (flatpak_batch s)).
  { subst rs. rewrite run_updates_results.
    unfold executed_batch, answer, first_update_call.
    rewrite Hh, andb_false_r. simpl. apply imap_ext.
    intros k x Hx%list_elem_of_lookup_2. by rewrite flatpak_batch_argv. }
  rewrite Hrs. repeat split.
  - by rewrite length_imap.
  - apply filter_all_false. intros r (k & pkg & -> & Hpkg)%elem_of_lookup_imap.
    rewrite record_result_source.
    apply list_elem_of_lookup_2, from_source_spec in Hpkg as [_ ->]. done.
Qed.

(** C5 (amended).  The entry of the [k]-th executed item carries the
    item's name and source.  When the item's command exits with a
    non-zero status the entry has [success = false] and its error is the
    last non-blank line of the captured standard error with leading and
    trailing whitespace removed, or "Unknown error" when no line is
    non-blank; when it exits with status 0 the entry has
    [success = true] and an empty error. *)
Theorem failure_capture (k : nat) (pkg : Package.t) :
  executed_batch s !! k = Some pkg →
  let ans := answer procs s k pkg in
  ∃ r, results (run_updates procs s) !! k = Some r
    ∧ UpdateResult.name r = Package.name pkg
    ∧ UpdateResult.source r = Package.source pkg
    ∧ (returncode ans ≠ 0 →
         UpdateResult.success r = false
         ∧ UpdateResult.error r =
             match last_nonblank_line (default "" (stderr ans)) with
             | Some l => Py.strip l
             | None => "Unknown error"
             end)
    ∧ (returncode ans = 0 →
         UpdateResult.success r = true ∧ UpdateResult.error r = "").
Proof.
  intros Hk ans. exists (record_result pkg ans).
  rewrite run_updates_results, list_lookup_imap, Hk. simpl.
  rewrite record_result_name, record_result_source.
  repeat split; try done; unfold record_result.
  - by destruct (Z.eqb_spec (returncode ans) 0).
  - destruct (Z.eqb_spec (returncode ans) 0); [done|]. simpl.
    apply last_error_spec.
  - by destruct (Z.eqb_spec (returncode ans) 0).
  - by destruct (Z.eqb_spec (returncode ans) 0).
Qed.

End Executor.

Lemma one_failure_one_failed_entry_witness :
  let rs := results (run_updates (fails_at 2 "error: target not found")
                                 (on_button CONFIRM 0)) in
  map UpdateResult.name rs = ["linux"; "yay-bin"; "org.gimp.GIMP"]
  ∧ map UpdateResult.source rs = [OFFICIAL; AUR; FLATPAK]
  ∧ length (List.filter (λ r, negb (UpdateResult.success r)) rs) = 1%nat.
Proof.
  destruct (one_failure_one_failed_entry
              (fails_at 2 "error: target not found") (on_button CONFIRM 0) 1)
    as (Hnames & Hsources & _ & Hcount).
  - simpl. lia.
  - intros [|[|[|k]]] pkg Hk; vm_compute in Hk; try discriminate;
      vm_compute; split; intros; try discriminate; try reflexivity;
      try (exfalso; auto).
  - split; [exact Hnames|]. split; [exact Hsources | exact Hcount].
Defined.

Lemma no_helper_only_flatpak_witness :
  results (run_updates all_succeed (init sample_catalog None))
  = [UpdateResult.mk "org.gimp.GIMP" FLATPAK true ""].
Proof.
  destruct (no_helper_only_flatpak all_succeed (init sample_catalog None))
    as (Hrs & _ & _); [reflexivity|]. exact Hrs.
Defined.

Lemma failure_capture_witness :
  ∃ r, results (run_updates
                  (fails_at 3 (String.append "error: network unreachable"
                                             (String Py.NL "")))
                  (on_button CONFIRM 0)) !! 2%nat = Some r
    ∧ UpdateResult.name r = "org.gimp.GIMP"
    ∧ UpdateResult.success r = false
    ∧ UpdateResult.error r = "error: network unreachable".
Proof.
  destruct (failure_capture
              (fails_at 3 (String.append "error: network unreachable"
                                         (String Py.NL "")))
              (on_button CONFIRM 0) 2
              (Package.new "org.gimp.GIMP" "installed" "2.10" FLATPAK))
    as (r & Hr & Hname & _ & Hfail & _); [reflexivity|].
  exists r. split; [exact Hr|]. split; [exact Hname|].
  apply Hfail. vm_compute. discriminate.
Defined.

(** C5, as stated, fails: the helper's message " -> error making:
    yay-bin" is the last non-blank line of the captured text, and the
    recorded error is that line without its leading blank. *)
Lemma error_line_is_stripped :
  let text := " -> error making: yay-bin" in
  let rs := results (run_updates (fails_at 2 text) (on_button CONFIRM 0)) in
  last_nonblank_line text = Some " -> error making: yay-bin"
  ∧ rs !! 1%nat
    = Some (UpdateResult.mk "yay-bin" AUR false "-> error making: yay-bin")
  ∧ "-> error making: yay-bin" ≠ " -> error making: yay-bin".
Proof. repeat split; try reflexivity. discriminate. Qed.

(** ** The interaction loop, one turn at a time *)

Create HintDb tui.
#[local] Hint Constructors transition : tui.

(** What [activate_button] can return. *)
Lemma activate_button_cases s r :
  activate_button s = Some r →
  (r = (None, s))
  ∨ (mode s = SELECT ∧ r = (None, move_to_list (select_all s)))
  ∨ (mode s = SELECT ∧ r = (None, move_to_list (deselect_all s)))
  ∨ (mode s = SELECT ∧ existsb Package.selected (packages s) = true
     ∧ Py.getitem SELECT_BUTTONS (button_cursor s) = Some "Update"
     ∧ r = (None, set_button_cursor 0
                    (set_in_button_area true (set_mode CONFIRM s))))
  ∨ (mode s = SELECT ∧ r = (Some exit, s))
  ∨ (mode s = CONFIRM ∧ r = (Some run_updates_requested, s))
  ∨ (mode s = CONFIRM
     ∧ Py.getitem CONFIRM_BUTTONS (button_cursor s) = Some "Go Back"
     ∧ r = (None, set_in_button_area false (set_mode SELECT s)))
  ∨ (mode s = RESULTS ∧ r = (Some exit, s)).
Proof.
  unfold activate_button. intros H.
  destruct (mode s) eqn:Hm; simpl in H.
  - destruct (Py.getitem SELECT_BUTTONS (button_cursor s)) as [btn|] eqn:Hb;
      simpl in H; [|done].
    destruct (String.eqb_spec btn "Select All"); simplify_eq; auto.
    destruct (String.eqb_spec btn "Deselect All"); simplify_eq; auto.
    destruct (String.eqb_spec btn "Update"); simplify_eq.
    { destruct (existsb Package.selected (packages s)) eqn:Hs;
        simplify_eq; auto 10. }
    destruct (String.eqb_spec btn "Exit"); simplify_eq; auto 10.
  - destruct (Py.getitem CONFIRM_BUTTONS (button_cursor s)) as [btn|] eqn:Hb;
      simpl in H; [|done].
    destruct (String.eqb_spec btn "Yes, Update"); simplify_eq; auto 10.
    destruct (String.eqb_spec btn "Go Back"); simplify_eq; auto 10.
  - simplify_eq. auto.
  - simplify_eq. auto 10.
Qed.

Ltac button_cases H :=
  apply activate_button_cases in H
    as [?|[[? ?]|[[? ?]|[(? & ? & ? & ?)|[[? ?]|[[? ?]|[(? & ? & ?)|[? ?]]]]]]]];
  simplify_eq/=.

Lemma activate_button_exit s s' :
  activate_button s = Some (Some exit, s') → s' = s.
Proof. intros H. button_cases H; done. Qed.

Lemma activate_button_length s a s' :
  activate_button s = Some (a, s') →
  length (packages s') = length (packages s)
  ∧ cursor s' = cursor s ∧ scroll_offset s' = scroll_offset s.
Proof. intros H. button_cases H; rewrite ?length_map; done. Qed.

Lemma press_button_transition e s s' :
  in_button_area s = true →
  press_button e s = Running s' → transition e s s'.
Proof.
  unfold press_button. intros Hb H.
  destruct (activate_button s) as [[[[]|] s0]|] eqn:Ha; simplify_eq;
    eauto with tui.
Qed.

Lemma toggle_transition e s s' :
  in_button_area s = false → mode s = SELECT →
  toggle s = Running s' → transition e s s'.
Proof.
  unfold toggle. intros Hb Hm H.
  destruct (toggle_current s) eqn:Ht; simplify_eq. eauto with tui.
Qed.

(** Every turn after which the loop goes on is one of the transitions. *)
Lemma handle_key_transition e s s' :
  handle_key e s = Running s' → transition e s s'.
Proof.
  unfold handle_key. intros H.
  destruct (mode s) eqn:Hm; simplify_eq; try apply t_idle;
    destruct (binding (key e)); simpl in H;
    destruct (in_button_area s) eqn:Hb; simpl in H;
    repeat case_match; simplify_eq;
    eauto using press_button_transition, toggle_transition with tui.
Qed.

(** Leaving the loop changes nothing. *)
Lemma handle_key_Exited e s s' : handle_key e s = Exited s' → s' = s.
Proof.
  assert (Hp : press_button e s = Exited s' → s' = s).
  { unfold press_button.
    destruct (activate_button s) as [[[[]|] s0]|] eqn:Ha; intros; simplify_eq.
    by apply activate_button_exit. }
  assert (Ht : toggle s = Exited s' → s' = s).
  { unfold toggle. by destruct (toggle_current s). }
  unfold handle_key. intros H.
  destruct (mode s); simplify_eq;
    destruct (binding (key e)); simpl in H;
    destruct (in_button_area s); simpl in H;
    repeat case_match; simplify_eq; auto.
Qed.

(** Induction over a run: a property of the first state that every
    transition keeps, for events that all satisfy [Q], holds of the
    state the run ends in. *)
Lemma run_invariant (Q : Event → Prop) (P : UpdaterTUI → Prop) :
  (∀ e s s', Q e → P s → transition e s s' → P s') →
  ∀ events s s', Forall Q events → P s →
    state_of (run events s) = Some s' → P s'.
Proof.
  intros Hstep events.
  induction events as [|e events IH]; intros s s' HQ HP Hrun; simpl in Hrun.
  - by simplify_eq.
  - inversion HQ as [|? ? He HQ']; subst.
    destruct (handle_key e s) as [s1|s1|] eqn:Hk; simpl in Hrun.
    + eapply IH; [done| |done]. eauto using handle_key_transition.
    + simplify_eq. by apply handle_key_Exited in Hk as ->.
    + done.
Qed.

(** *** What the handlers leave alone *)

Lemma move_cursor_frame h d s :
  packages (move_cursor h d s) = packages s
  ∧ mode (move_cursor h d s) = mode s
  ∧ in_button_area (move_cursor h d s) = in_button_area s
  ∧ aur_helper (move_cursor h d s) = aur_helper s
  ∧ results (move_cursor h d s) = results s.
Proof. unfold move_cursor. repeat case_match; done. Qed.

Lemma move_cursor_buttons h d s :
  in_button_area s = true →
  move_cursor h d s =
    set_button_cursor
      (Z.max 0 (Z.min (len (current_buttons s) - 1) (button_cursor s + d))) s.
Proof. unfold move_cursor. by intros ->. Qed.

(** On the list, [move_cursor] puts the cursor on an item and, when the
    page has at least one line, the page around the cursor. *)
Lemma move_cursor_list h d s :
  in_button_area s = false →
  1 ≤ len (packages s) →
  let s' := move_cursor h d s in
  0 ≤ cursor s' ≤ len (packages s) - 1
  ∧ (1 ≤ visible_height h → window_ok h s').
Proof.
  intros Hb Hn. unfold move_cursor, window_ok. rewrite Hb. simpl.
  repeat case_match; simpl; bool_to_Z; lia.
Qed.

Lemma toggle_current_frame s s' :
  toggle_current s = Some s' →
  length (packages s') = length (packages s)
  ∧ mode s' = mode s
  ∧ cursor s' = cursor s
  ∧ scroll_offset s' = scroll_offset s
  ∧ in_button_area s' = in_button_area s
  ∧ button_cursor s' = button_cursor s.
Proof.
  unfold toggle_current. intros Ht.
  destruct (negb (in_button_area s) && nonempty (packages s));
    [|by simplify_eq].
  destruct (Py.index (packages s) (cursor s)); simplify_eq/=.
  by rewrite length_alter.
Qed.

Lemma existsb_selected_count s :
  existsb Package.selected (packages s) = true ↔ (0 < selected_count s)%nat.
Proof.
  unfold selected_count, selected_items.
  induction (packages s) as [|p l IH]; simpl.
  - split; [discriminate|lia].
  - destruct (Package.selected p); simpl; [|exact IH].
    split; intros; [lia|reflexivity].
Qed.

(** ** Confirming needs a selection *)

(** A turn that ends in [CONFIRM] either started there and kept the
    catalogue, or found an item selected. *)
Lemma transition_into_confirm e s s' :
  transition e s s' → mode s' = CONFIRM →
  (mode s = CONFIRM ∧ packages s' = packages s)
  ∨ existsb Package.selected (packages s') = true.
Proof.
  intros Ht.
  destruct Ht as [ |delta|Hb Hs|Hb|Hb|Hb Hs|s' Hb Hs Htog|s' Hb Hact|s0 Hb Hact];
    intros Hm; simplify_eq/=; auto.
  - destruct (move_cursor_frame (term_height e) delta s) as (-> & Hm' & _).
    left. split; congruence.
  - apply toggle_current_frame in Htog as (_ & ? & _). congruence.
  - button_cases Hact; auto; congruence.
Qed.

(** C6.  In every state a session reaches from its initial state, the
    mode is [CONFIRM] only with at least one item selected; and in
    [SELECT] mode with the focus on the Update button and nothing
    selected, activating the button (Enter or Space) leaves the state as
    it is, in [SELECT] mode. *)
Theorem confirm_needs_selection
    (pkgs : list Package.t) (helper : option string)
    (events : list Event) (s : UpdaterTUI) :
  state_of (run events (init pkgs helper)) = Some s →
  (mode s = CONFIRM → (0 < selected_count s)%nat)
  ∧ (∀ e,
       mode s = SELECT → in_button_area s = true →
       Py.getitem SELECT_BUTTONS (button_cursor s) = Some "Update" →
       selected_count s = 0%nat →
       binding (key e) = Enter ∨ binding (key e) = Space →
       handle_key e s = Running s).
Proof.
  intros Hrun. split.
  - revert Hrun.
    apply (run_invariant (λ _, True)
             (λ s, mode s = CONFIRM → (0 < selected_count s)%nat)).
    + intros e s1 s2 _ IH Ht Hm.
      destruct (transition_into_confirm e s1 s2 Ht Hm) as [[Hm1 Hp]|Hsel].
      * unfold selected_count, selected_items in *. rewrite Hp. auto.
      * by apply existsb_selected_count.
    + by apply Forall_true.
    + done.
  - intros e Hm Hb Hbtn Hcount Hkey.
    assert (Hnone : existsb Package.selected (packages s) = false).
    { destruct (existsb Package.selected (packages s)) eqn:Hex; [|done].
      apply existsb_selected_count in Hex. lia. }
    assert (Hpress : press_button e s = Running s).
    { unfold press_button, activate_button.
      rewrite Hm, Hbtn. simpl. by rewrite Hnone. }
    unfold handle_key. rewrite Hm, Hb.
    by destruct Hkey as [-> | ->].
Qed.

Lemma confirm_needs_selection_witness :
  (0 < selected_count (on_button CONFIRM 0))%nat
  ∧ handle_key (press 24 "KEY_ENTER") nothing_selected
    = Running nothing_selected.
Proof.
  split.
  - apply (confirm_needs_selection sample_catalog (Some "yay")
             (to_update_button ++ [press 24 "KEY_ENTER"])
             (on_button CONFIRM 0));
      reflexivity.
  - apply (confirm_needs_selection sample_catalog (Some "yay")
             to_nothing_selected nothing_selected);
      try reflexivity.
    left. reflexivity.
Defined.

(** ** The cursor and the scroll window *)

Lemma transition_cursor_ok n e s s' :
  (1 ≤ n)%nat → transition e s s' → cursor_ok n s → cursor_ok n s'.
Proof.
  intros Hn Ht [Hlen Hc]. unfold cursor_ok.
  destruct Ht as [ |delta|Hb Hs|Hb|Hb|Hb Hs|s' Hb Hs Htog|s' Hb Hact|s0 Hb Hact];
    simpl; unfold len; rewrite ?Hlen; try (split; [done|lia]).
  - destruct (move_cursor_frame (term_height e) delta s) as (-> & _).
    split; [done|]. destruct (in_button_area s) eqn:Hb.
    + by rewrite move_cursor_buttons.
    + pose proof (move_cursor_list (term_height e) delta s Hb) as Hmv.
      unfold len in Hmv. rewrite Hlen in Hmv. apply Hmv. lia.
  - apply toggle_current_frame in Htog as (-> & _ & -> & _). done.
  - apply activate_button_length in Hact as (-> & -> & _). done.
  - apply activate_button_length in Hact as (-> & -> & _). done.
Qed.

Lemma transition_window_ok n h e s s' :
  (1 ≤ n)%nat → term_height e = h → 1 ≤ visible_height h →
  transition e s s' → cursor_ok n s → window_ok h s → window_ok h s'.
Proof.
  intros Hn He Hvh Ht [Hlen Hc] Hw. unfold window_ok in *.
  destruct Ht as [ |delta|Hb Hs|Hb|Hb|Hb Hs|s' Hb Hs Htog|s' Hb Hact|s0 Hb Hact];
    simpl; rewrite ?He; unfold len; rewrite ?Hlen; try lia.
  - destruct (in_button_area s) eqn:Hb.
    + by rewrite move_cursor_buttons.
    + apply (move_cursor_list h delta s Hb); [unfold len; lia|done].
  - apply toggle_current_frame in Htog as (_ & _ & -> & -> & _). done.
  - apply activate_button_length in Hact as (_ & -> & ->). done.
  - apply activate_button_length in Hact as (_ & -> & ->). done.
Qed.

(** C1 (amended).  Start from a non-empty catalogue, on a terminal
    whose height [h] is the same at every key and leaves a page of at
    least one line ([h - 10 >= 1]).  Then after any sequence of keys, in
    [SELECT] mode with the focus on the list, the catalogue has kept its
    length, the cursor is within [0, len - 1], and
    [scroll_offset <= cursor < scroll_offset + (h - 10)]. *)
Theorem browsing_cursor_window
    (pkgs : list Package.t) (helper : option string)
    (h : Z) (events : list Event) (s : UpdaterTUI) :
  pkgs ≠ [] →
  1 ≤ visible_height h →
  Forall (λ e, term_height e = h) events →
  state_of (run events (init pkgs helper)) = Some s →
  mode s = SELECT → in_button_area s = false →
  length (packages s) = length pkgs
  ∧ 0 ≤ cursor s ≤ len (packages s) - 1
  ∧ scroll_offset s ≤ cursor s < scroll_offset s + visible_height h.
Proof.
  intros Hne Hvh Hev Hrun _ _.
  assert (Hn : (1 ≤ length pkgs)%nat) by (destruct pkgs; simpl; [done|lia]).
  cut (cursor_ok (length pkgs) s ∧ window_ok h s).
  { intros [[Hlen Hc] Hw]. unfold len. rewrite Hlen. done. }
  revert Hrun.
  apply (run_invariant (λ e, term_height e = h)
           (λ s, cursor_ok (length pkgs) s ∧ window_ok h s)); [|done|].
  - intros e s1 s2 He [Hc Hw] Ht.
    eauto using transition_cursor_ok, transition_window_ok.
  - unfold cursor_ok, window_ok. simpl. lia.
Qed.

Lemma browsing_cursor_window_witness :
  let s := browsing 2 1 in
  run [press 12 "KEY_END"] (init sample_catalog (Some "yay")) = Running s
  ∧ length (packages s) = 3%nat
  ∧ 0 ≤ cursor s ≤ len (packages s) - 1
  ∧ scroll_offset s ≤ cursor s < scroll_offset s + visible_height 12.
Proof.
  split; [reflexivity|].
  apply (browsing_cursor_window sample_catalog (Some "yay") 12
           [press 12 "KEY_END"] (browsing 2 1)).
  - discriminate.
  - vm_compute. discriminate.
  - repeat constructor.
  - reflexivity.
  - reflexivity.
  - reflexivity.
Defined.

(** C1, as stated, fails on a terminal ten lines high: the page is
    empty, and one Down from the initial state leaves the cursor on item
    1 with the scroll offset at 2, in [SELECT] mode with the focus on
    the list. *)
Lemma short_terminal_breaks_window :
  let s := browsing 1 2 in
  run [press 10 "KEY_DOWN"] (init sample_catalog (Some "yay")) = Running s
  ∧ mode s = SELECT ∧ in_button_area s = false
  ∧ ¬ (scroll_offset s ≤ cursor s < scroll_offset s + visible_height 10).
Proof.
  repeat split; try reflexivity. vm_compute. intros [H _]. by apply H.
Qed.

(** The height has to stay the same: End on a terminal of twelve lines
    puts the offset at 1 for a page of two lines; once the terminal has
    shrunk to eleven lines, a key that is bound to nothing leaves cursor
    2 and offset 1, outside a page of one line. *)
Lemma resize_breaks_window :
  let s := browsing 2 1 in
  run [press 12 "KEY_END"; typed 11 "x"] (init sample_catalog (Some "yay"))
    = Running s
  ∧ 1 ≤ visible_height 11
  ∧ ¬ (scroll_offset s ≤ cursor s < scroll_offset s + visible_height 11).
Proof.
  repeat split; try reflexivity; vm_compute; try discriminate.
  intros [_ H]. discriminate.
Qed.

(** X3.  Whatever the terminal does, the cursor of a non-empty
    catalogue stays on an item. *)
Lemma cursor_in_range
    (pkgs : list Package.t) (helper : option string)
    (events : list Event) (s : UpdaterTUI) :
  pkgs ≠ [] →
  state_of (run events (init pkgs helper)) = Some s →
  length (packages s) = length pkgs ∧ 0 ≤ cursor s ≤ len (packages s) - 1.
Proof.
  intros Hne Hrun.
  assert (Hn : (1 ≤ length pkgs)%nat) by (destruct pkgs; simpl; [done|lia]).
  cut (cursor_ok (length pkgs) s).
  { intros [Hlen Hc]. unfold len. rewrite Hlen. done. }
  revert Hrun.
  apply (run_invariant (λ _, True) (cursor_ok (length pkgs))).
  - eauto using transition_cursor_ok.
  - by apply Forall_true.
  - unfold cursor_ok. simpl. lia.
Qed.

Lemma cursor_in_range_witness :
  let s := browsing 1 2 in
  length (packages s) = 3%nat ∧ 0 ≤ cursor s ≤ len (packages s) - 1.
Proof.
  apply (cursor_in_range sample_catalog (Some "yay") [press 10 "KEY_DOWN"]);
    [discriminate | reflexivity].
Defined.

(** ** No lookup of the loop goes out of range *)

Lemma nonempty_len {A} (l : list A) : nonempty l = true ↔ 1 ≤ len l.
Proof. destruct l; unfold len; simpl; split; intros; try done; lia. Qed.

Lemma len_buttons s : mode s ≠ UPDATING → 1 ≤ len (current_buttons s).
Proof.
  unfold current_buttons. destruct (mode s); unfold len; simpl; try lia; done.
Qed.

Lemma index_Some {A} (l : list A) i :
  0 ≤ i < len l → ∃ k, Py.index l i = Some k ∧ (k < length l)%nat.
Proof.
  unfold len, Py.index. intros Hi.
  destruct (Z.leb_spec 0 i); [|lia].
  destruct (Z.ltb_spec i (Z.of_nat (length l))); [|lia].
  simpl. eexists; split; [done|lia].
Qed.

Lemma getitem_Some {A} (l : list A) i :
  0 ≤ i < len l → is_Some (Py.getitem l i).
Proof.
  intros (k & Hk & Hlt)%index_Some. unfold Py.getitem. rewrite Hk. simpl.
  by apply lookup_lt_is_Some.
Qed.

Lemma activate_button_Some s :
  indices_ok s → in_button_area s = true → is_Some (activate_button s).
Proof.
  intros (Hm & _ & Hbc) Hb. specialize (Hbc Hb).
  unfold activate_button. unfold current_buttons in Hbc.
  destruct (mode s); try done.
  - destruct (getitem_Some _ _ Hbc) as [btn ->]. simpl.
    repeat case_match; done.
  - destruct (getitem_Some _ _ Hbc) as [btn ->]. simpl.
    repeat case_match; done.
Qed.

Lemma toggle_current_Some s : indices_ok s → is_Some (toggle_current s).
Proof.
  intros (_ & Hc & _). unfold toggle_current.
  destruct (in_button_area s); simpl; [done|].
  destruct (nonempty (packages s)); [|done].
  by destruct (index_Some (packages s) (cursor s)) as (k & -> & _); auto.
Qed.

Lemma handle_key_not_Raised e s : indices_ok s → handle_key e s ≠ Raised.
Proof.
  intros Hok.
  assert (Hp : in_button_area s = true → press_button e s ≠ Raised).
  { intros Hb. unfold press_button.
    destruct (activate_button_Some s Hok Hb) as [[[[]|] s'] ->]; done. }
  assert (Ht : toggle s ≠ Raised).
  { unfold toggle. by destruct (toggle_current_Some s Hok) as [s' ->]. }
  unfold handle_key.
  destruct (mode s); try done;
    destruct (binding (key e)); try done;
    destruct (in_button_area s); simpl; auto; repeat case_match; done.
Qed.

Lemma transition_indices_ok e s s' :
  transition e s s' → indices_ok s → indices_ok s'.
Proof.
  intros Ht (Hm & Hc & Hbc). unfold indices_ok.
  destruct Ht as [ |delta|Hb Hs|Hb|Hb|Hb Hs|s' Hb Hs Htog|s' Hb Hact|s0 Hb Hact].
  - done.
  - destruct (move_cursor_frame (term_height e) delta s) as (-> & -> & -> & _).
    split; [done|]. destruct (in_button_area s) eqn:Hb.
    + rewrite move_cursor_buttons by done. simpl.
      split; [done|]. intros _.
      change (current_buttons (set_button_cursor _ s)) with (current_buttons s).
      pose proof (len_buttons s Hm). lia.
    + split; [|done]. intros Hne%nonempty_len.
      pose proof (move_cursor_list (term_height e) delta s Hb Hne) as [? _]. lia.
  - simpl. split; [done|]. split; [|done].
    intros Hne%nonempty_len. lia.
  - simpl. rewrite Hb. split; [done|]. split; [|done].
    intros Hne%nonempty_len. lia.
  - simpl. rewrite Hb. split; [done|]. split; [|done].
    intros Hne%nonempty_len. lia.
  - simpl. split; [done|]. split; [done|]. intros _.
    unfold current_buttons. simpl. rewrite Hs. unfold len. simpl. lia.
  - pose proof Htog as Hfr.
    apply toggle_current_frame in Hfr as (Hlen & -> & -> & _ & -> & ->).
    split; [done|]. split; [|rewrite Hb; done].
    rewrite !nonempty_len. unfold len in *. rewrite Hlen.
    rewrite nonempty_len in Hc. done.
  - pose proof Hact as Hfr.
    apply activate_button_length in Hfr as (Hlen & Hcur & _).
    assert (Hc' : nonempty (packages s') = true →
                  0 ≤ cursor s' < len (packages s')).
    { rewrite !nonempty_len. unfold len in *. rewrite Hlen, Hcur.
      rewrite nonempty_len in Hc. done. }
    button_cases Hact; (split; [|split]); try done; try congruence;
      intros _; unfold len; simpl; lia.
  - pose proof Hact as Hfr.
    apply activate_button_length in Hfr as (Hlen & Hcur & _).
    simpl. split; [done|]. split.
    + rewrite !nonempty_len. unfold len in *. rewrite Hlen, Hcur.
      rewrite nonempty_len in Hc. done.
    + intros _. unfold current_buttons, len; simpl; lia.
Qed.

Lemma init_indices_ok pkgs helper : indices_ok (init pkgs helper).
Proof.
  unfold indices_ok. simpl. split; [done|]. split; [|done].
  intros Hne%nonempty_len. lia.
Qed.

Lemma run_from_indices_ok events s :
  indices_ok s → ∃ s', state_of (run events s) = Some s'.
Proof.
  revert s. induction events as [|e events IH]; intros s Hok; simpl.
  - by exists s.
  - destruct (handle_key e s) as [s1|s1|] eqn:Hk.
    + apply IH. eauto using transition_indices_ok, handle_key_transition.
    + by exists s1.
    + by apply handle_key_not_Raised in Hk.
Qed.

(** X1.  From the initial state no sequence of keys makes a handler
    raise [IndexError]: every run is in a state. *)
Lemma run_never_raises
    (pkgs : list Package.t) (helper : option string) (events : list Event) :
  ∃ s, state_of (run events (init pkgs helper)) = Some s.
Proof. apply run_from_indices_ok. apply init_indices_ok. Qed.

(** [main] starts the TUI exactly when some update was found, and the
    session it starts never raises. *)
Lemma main_runs env events :
  match main env events with
  | None => gather_packages env = []
  | Some o => gather_packages env ≠ [] ∧ ∃ s, state_of o = Some s
  end.
Proof.
  unfold main. destruct (gather_packages env) as [|p l] eqn:Hg; simpl.
  - done.
  - split; [done|]. apply run_from_indices_ok, init_indices_ok.
Qed.

(** ** Going back from the confirmation *)

Lemma transition_enters_confirm e s s' :
  transition e s s' → mode s = SELECT → mode s' = CONFIRM →
  in_button_area s' = true ∧ same_view s s'.
Proof.
  intros Ht.
  destruct Ht as [ |delta|Hb Hs|Hb|Hb|Hb Hs|s' Hb Hs Htog|s' Hb Hact|s0 Hb Hact];
    intros Hm Hm'; simplify_eq/=; try congruence.
  - destruct (move_cursor_frame (term_height e) delta s) as (_ & ? & _).
    congruence.
  - apply toggle_current_frame in Htog as (_ & ? & _). congruence.
  - button_cases Hact; try congruence. by repeat split.
Qed.

Lemma transition_within_confirm e s s' :
  transition e s s' →
  mode s = CONFIRM → in_button_area s = true → mode s' = CONFIRM →
  in_button_area s' = true ∧ same_view s s'.
Proof.
  intros Ht.
  destruct Ht as [ |delta|Hb Hs|Hb|Hb|Hb Hs|s' Hb Hs Htog|s' Hb Hact|s0 Hb Hact];
    intros Hm Hba Hm'; simplify_eq/=; try congruence.
  - by repeat split.
  - rewrite move_cursor_buttons by done. by repeat split.
  - button_cases Hact; try congruence. by repeat split.
Qed.

Lemma stays_confirming_view events s s1 :
  mode s = CONFIRM → in_button_area s = true →
  stays_confirming events s = Some s1 →
  mode s1 = CONFIRM ∧ in_button_area s1 = true ∧ same_view s s1.
Proof.
  revert s. induction events as [|e events IH]; intros s Hm Hb Hrun;
    simpl in Hrun.
  - simplify_eq. by repeat split.
  - destruct (handle_key e s) as [s'| |] eqn:Hk; try done.
    destruct (mode s') eqn:Hm'; try done.
    apply handle_key_transition in Hk.
    destruct (transition_within_confirm e s s' Hk Hm Hb Hm')
      as (Hb' & Hc & Hs & Hp).
    destruct (IH s' Hm' Hb' Hrun) as (? & ? & Hc1 & Hs1 & Hp1).
    repeat split; congruence.
Qed.

(** C9.  Let a key pressed in [SELECT] mode in state [s] enter
    [CONFIRM] mode, let any keys follow that all leave the mode at
    [CONFIRM], and let the focus then be on "Go Back".  Enter then gives
    a state in [SELECT] mode with the focus on the list whose cursor,
    scroll offset and catalogue (every [selected] flag included) are
    those of [s]. *)
Theorem go_back_restores_browsing
    (s s0 s1 : UpdaterTUI) (e_in e_back : Event) (events : list Event) :
  mode s = SELECT →
  handle_key e_in s = Running s0 →
  mode s0 = CONFIRM →
  stays_confirming events s0 = Some s1 →
  Py.getitem CONFIRM_BUTTONS (button_cursor s1) = Some "Go Back" →
  binding (key e_back) = Enter →
  ∃ s2, handle_key e_back s1 = Running s2
    ∧ mode s2 = SELECT
    ∧ in_button_area s2 = false
    ∧ cursor s2 = cursor s
    ∧ scroll_offset s2 = scroll_offset s
    ∧ packages s2 = packages s.
Proof.
  intros Hm Hin Hm0 Hstay Hbtn Hkey.
  apply handle_key_transition in Hin.
  destruct (transition_enters_confirm e_in s s0 Hin Hm Hm0)
    as (Hb0 & Hc0 & Hs0 & Hp0).
  destruct (stays_confirming_view events s0 s1 Hm0 Hb0 Hstay)
    as (Hm1 & Hb1 & Hc1 & Hs1 & Hp1).
  exists (set_in_button_area false (set_mode SELECT s1)).
  split.
  - unfold handle_key. rewrite Hm1, Hkey, Hb1.
    unfold press_button, activate_button. rewrite Hm1, Hbtn. done.
  - simpl. repeat split; congruence.
Qed.

Lemma go_back_restores_browsing_witness :
  ∃ s2, handle_key (press 24 "KEY_ENTER") (on_button CONFIRM 1) = Running s2
    ∧ mode s2 = SELECT
    ∧ in_button_area s2 = false
    ∧ cursor s2 = 2
    ∧ scroll_offset s2 = 0
    ∧ packages s2 = sample_catalog.
Proof.
  apply (go_back_restores_browsing
           (on_button SELECT 2) (on_button CONFIRM 0) (on_button CONFIRM 1)
           (press 24 "KEY_ENTER") (press 24 "KEY_ENTER")
           [typed 24 "k"; press 24 "KEY_DOWN"; press 24 "KEY_RIGHT"]);
    reflexivity.
Defined.

(** ** Vertical keys on the button row *)

(** C10 (amended).  In [CONFIRM] and [RESULTS] mode with the focus on
    the buttons, Up (the up arrow, w or k) does what Left does: the
    button cursor goes one down, clamped to [0, count - 1], where Right
    sends it one up under the same clamp; Down (the down arrow, s or j)
    leaves the state as it is. *)
Theorem buttons_vertical_keys (e : Event) (s : UpdaterTUI) :
  mode s = CONFIRM ∨ mode s = RESULTS →
  in_button_area s = true →
  let clamp d :=
    Z.max 0 (Z.min (len (current_buttons s) - 1) (button_cursor s + d)) in
  (binding (key e) = Up ∨ binding (key e) = Left →
     handle_key e s = Running (set_button_cursor (clamp (-1)) s))
  ∧ (binding (key e) = Right →
     handle_key e s = Running (set_button_cursor (clamp 1) s))
  ∧ (binding (key e) = Down → handle_key e s = Running s)
  ∧ 0 ≤ clamp (-1) ≤ len (current_buttons s) - 1
  ∧ 0 ≤ clamp 1 ≤ len (current_buttons s) - 1.
Proof.
  intros Hm Hb clamp. subst clamp. simpl.
  assert (Hn : 1 ≤ len (current_buttons s)).
  { apply len_buttons. destruct Hm as [-> | ->]; done. }
  repeat split; try lia.
  - intros Hk. unfold handle_key.
    destruct Hm as [Hm|Hm], Hk as [Hk|Hk]; rewrite Hm, Hk, Hb; simpl;
      by rewrite move_cursor_buttons.
  - intros Hk. unfold handle_key.
    destruct Hm as [Hm|Hm]; rewrite Hm, Hk, Hb; simpl;
      by rewrite move_cursor_buttons.
  - intros Hk. unfold handle_key.
    destruct Hm as [Hm|Hm]; by rewrite Hm, Hk, Hb.
Qed.

Lemma buttons_vertical_keys_witness :
  handle_key (typed 24 "k") (on_button CONFIRM 1)
  = Running (on_button CONFIRM 0)
  ∧ handle_key (typed 24 "j") (on_button CONFIRM 0)
    = Running (on_button CONFIRM 0).
Proof.
  split.
  - apply (buttons_vertical_keys (typed 24 "k") (on_button CONFIRM 1));
      [left; reflexivity | reflexivity | left; reflexivity].
  - apply (buttons_vertical_keys (typed 24 "j") (on_button CONFIRM 0));
      [left; reflexivity | reflexivity | reflexivity].
Defined.

(** C10, as stated, fails for Down: in [CONFIRM] mode, reached from the
    initial state, with the button cursor on "Yes, Update", Right moves
    the cursor to "Go Back" and Down leaves it where it is. *)
Lemma down_is_inert_on_buttons :
  let s := on_button CONFIRM 0 in
  run (to_update_button ++ [press 24 "KEY_ENTER"])
      (init sample_catalog (Some "yay")) = Running s
  ∧ handle_key (press 24 "KEY_RIGHT") s = Running (on_button CONFIRM 1)
  ∧ handle_key (press 24 "KEY_DOWN") s = Running s
  ∧ handle_key (typed 24 "s") s = Running s
  ∧ handle_key (press 24 "KEY_DOWN") s ≠ handle_key (press 24 "KEY_RIGHT") s.
Proof. repeat split; try reflexivity. discriminate. Qed.

(** ** Further properties of the session *)

(** *** The scroll offset never passes the last page *)

Lemma move_cursor_scroll_ok n h d s :
  (1 ≤ n)%nat → length (packages s) = n →
  scroll_ok n h s → scroll_ok n h (move_cursor h d s).
Proof.
  intros Hn Hlen Hs. unfold scroll_ok, move_cursor, len in *. rewrite Hlen.
  destruct (in_button_area s); simpl; [done|].
  repeat case_match; simpl; bool_to_Z; lia.
Qed.

Lemma transition_scroll_ok n h e s s' :
  (1 ≤ n)%nat → term_height e = h →
  transition e s s' → cursor_ok n s → scroll_ok n h s → scroll_ok n h s'.
Proof.
  intros Hn He Ht [Hlen Hc] Hsc.
  by_transition Ht; try done;
    try (unfold scroll_ok, len in *; simpl; rewrite ?He, ?Hlen; lia).
  - rewrite He. by apply move_cursor_scroll_ok.
  - unfold scroll_ok in *.
    apply toggle_current_frame in Htog as (_ & _ & _ & -> & _). done.
  - unfold scroll_ok in *.
    apply activate_button_length in Hact as (_ & _ & ->). done.
  - unfold scroll_ok in *. simpl.
    apply activate_button_length in Hact as (_ & _ & ->). done.
Qed.

(** X4.  On a terminal whose height stays the same, the scroll offset of
    a non-empty catalogue is never negative and never past the last
    full page, [max(0, len - page)]; when the page is no longer than the
    catalogue, the page shown ends inside the catalogue. *)
Theorem scroll_offset_bounds
    (pkgs : list Package.t) (helper : option string)
    (h : Z) (events : list Event) (s : UpdaterTUI) :
  pkgs ≠ [] →
  Forall (λ e, term_height e = h) events →
  state_of (run events (init pkgs helper)) = Some s →
  0 ≤ scroll_offset s ≤ Z.max 0 (len pkgs - visible_height h)
  ∧ (0 ≤ visible_height h ≤ len pkgs →
       scroll_offset s + visible_height h ≤ len pkgs).
Proof.
  intros Hne Hev Hrun.
  assert (Hn : (1 ≤ length pkgs)%nat) by (destruct pkgs; simpl; [done|lia]).
  cut (cursor_ok (length pkgs) s ∧ scroll_ok (length pkgs) h s).
  { unfold scroll_ok, len. intros [_ Hs]. split; [done|]. lia. }
  revert Hrun.
  apply (run_invariant (λ e, term_height e = h)
           (λ s, cursor_ok (length pkgs) s ∧ scroll_ok (length pkgs) h s));
    [|done|].
  - intros e s1 s2 He [Hc Hs] Ht.
    eauto using transition_cursor_ok, transition_scroll_ok.
  - unfold cursor_ok, scroll_ok. simpl. lia.
Qed.

Lemma scroll_offset_bounds_witness :
  let s := browsing 2 1 in
  0 ≤ scroll_offset s ≤ Z.max 0 (len sample_catalog - visible_height 12)
  ∧ (0 ≤ visible_height 12 ≤ len sample_catalog →
       scroll_offset s + visible_height 12 ≤ len sample_catalog).
Proof.
  apply (scroll_offset_bounds sample_catalog (Some "yay") 12
           [press 12 "KEY_END"] (browsing 2 1));
    [discriminate | repeat constructor | reflexivity].
Defined.

(** *** The catalogue keeps its items *)

Lemma identity_of_flip p : identity_of (flip_selected p) = identity_of p.
Proof. done. Qed.

Lemma toggle_current_identity s s' :
  toggle_current s = Some s' →
  map identity_of (packages s') = map identity_of (packages s)
  ∧ aur_helper s' = aur_helper s ∧ results s' = results s.
Proof.
  unfold toggle_current. intros Ht.
  destruct (negb (in_button_area s) && nonempty (packages s));
    [|by simplify_eq].
  destruct (Py.index (packages s) (cursor s)) as [k|]; simplify_eq/=.
  split; [|done]. apply list_eq. intros i. rewrite !list_lookup_fmap.
  destruct (decide (i = k)) as [->|Hne].
  - rewrite list_lookup_alter_eq. by destruct (packages s !! k).
  - by rewrite list_lookup_alter_ne.
Qed.

Lemma activate_button_identity s a s' :
  activate_button s = Some (a, s') →
  map identity_of (packages s') = map identity_of (packages s)
  ∧ aur_helper s' = aur_helper s ∧ results s' = results s.
Proof.
  intros H. button_cases H; rewrite ?map_map; done.
Qed.

Lemma transition_identity e s s' :
  transition e s s' →
  map identity_of (packages s') = map identity_of (packages s)
  ∧ aur_helper s' = aur_helper s.
Proof.
  intros Ht. by_transition Ht; try done.
  - by destruct (move_cursor_frame (term_height e) delta s) as (-> & _ & _ & -> & _).
  - by apply toggle_current_identity in Htog as (? & ? & _).
  - by apply activate_button_identity in Hact as (? & ? & _).
  - simpl. by apply activate_button_identity in Hact as (? & ? & _).
Qed.

(** X5.  No key changes what the catalogue lists: after any run the
    items are the ones [main] handed over, in the same order, with
    their names, versions and sources; only the ticks can differ.  The
    AUR helper of the session stays the one given at the start. *)
Theorem catalogue_identity_stable
    (pkgs : list Package.t) (helper : option string)
    (events : list Event) (s : UpdaterTUI) :
  state_of (run events (init pkgs helper)) = Some s →
  map identity_of (packages s) = map identity_of pkgs
  ∧ aur_helper s = helper.
Proof.
  apply (run_invariant (λ _, True)
           (λ s, map identity_of (packages s) = map identity_of pkgs
                 ∧ aur_helper s = helper)).
  - intros e s1 s2 _ [Hp Hh] Ht.
    apply transition_identity in Ht as [-> ->]. done.
  - by apply Forall_true.
  - done.
Qed.

Lemma catalogue_identity_stable_witness :
  map identity_of (packages nothing_selected) = map identity_of sample_catalog
  ∧ aur_helper nothing_selected = Some "yay".
Proof.
  apply (catalogue_identity_stable sample_catalog (Some "yay")
           to_nothing_selected nothing_selected).
  reflexivity.
Defined.

Lemma catalogue_identity_helper pkgs helper events s :
  state_of (run events (init pkgs helper)) = Some s → aur_helper s = helper.
Proof.
  apply (run_invariant (λ _, True) (λ s, aur_helper s = helper)).
  - intros e s1 s2 _ Hh Ht. apply transition_identity in Ht as [_ ->]. done.
  - by apply Forall_true.
  - done.
Qed.

(** *** Focus and modes *)

Lemma transition_focus_ok e s s' :
  transition e s s' → focus_ok s → focus_ok s'.
Proof.
  intros Ht (Hm & Hc & Hr). unfold focus_ok.
  by_transition Ht.
  - done.
  - destruct (move_cursor_frame (term_height e) delta s) as (_ & -> & -> & _).
    split; [done|]. split; [done|]. intros Hres.
    destruct (Hr Hres) as [Hb Hbc]. split; [done|].
    rewrite move_cursor_buttons by done. simpl.
    unfold current_buttons. rewrite Hres. unfold len. simpl. lia.
  - simpl. rewrite Hs. done.
  - simpl. split; [done|].
    split; intros Hx; [apply Hc in Hx|apply Hr in Hx as [Hx _]]; congruence.
  - simpl. split; [done|].
    split; intros Hx; [apply Hc in Hx|apply Hr in Hx as [Hx _]]; congruence.
  - simpl. rewrite Hs. done.
  - apply toggle_current_frame in Htog as (_ & -> & _ & _ & -> & ->).
    rewrite Hs. done.
  - button_cases Hact; try done; (split; [|split]); try done; congruence.
  - simpl. done.
Qed.

(** X6.  After any run the mode is never [UPDATING] between two keys,
    the confirmation and the report have the focus on their buttons,
    and [q] leaves the program from wherever the user is. *)
Theorem focus_follows_mode
    (pkgs : list Package.t) (helper : option string)
    (events : list Event) (s : UpdaterTUI) :
  state_of (run events (init pkgs helper)) = Some s →
  mode s ≠ UPDATING
  ∧ (mode s = CONFIRM ∨ mode s = RESULTS → in_button_area s = true)
  ∧ (∀ e, binding (key e) = Quit → handle_key e s = Exited s).
Proof.
  intros Hrun.
  assert (Hf : focus_ok s).
  { revert Hrun. apply (run_invariant (λ _, True) focus_ok).
    - intros e s1 s2 _ Hf Ht. by eapply transition_focus_ok.
    - by apply Forall_true.
    - unfold focus_ok. simpl. done. }
  destruct Hf as (Hm & Hc & Hr). split; [done|]. split.
  - intros [Hx|Hx]; [by apply Hc|by apply Hr].
  - intros e Hq. unfold handle_key. rewrite Hq. by destruct (mode s).
Qed.

Lemma focus_follows_mode_witness :
  let s := on_button CONFIRM 0 in
  mode s ≠ UPDATING
  ∧ (mode s = CONFIRM ∨ mode s = RESULTS → in_button_area s = true)
  ∧ (∀ e, binding (key e) = Quit → handle_key e s = Exited s).
Proof.
  apply (focus_follows_mode sample_catalog (Some "yay")
           (to_update_button ++ [press 24 "KEY_ENTER"]) (on_button CONFIRM 0)).
  reflexivity.
Defined.

(** *** The report is final *)

(** X7.  The report is the last screen: there Enter and [q] end the
    program, and every other key, Space and the arrows included,
    changes nothing. *)
Theorem report_is_final
    (pkgs : list Package.t) (helper : option string)
    (events : list Event) (s : UpdaterTUI) (e : Event) :
  state_of (run events (init pkgs helper)) = Some s →
  mode s = RESULTS →
  (binding (key e) = Enter ∨ binding (key e) = Quit → handle_key e s = Exited s)
  ∧ (binding (key e) ≠ Enter → binding (key e) ≠ Quit →
       handle_key e s = Running s).
Proof.
  intros Hrun Hres.
  assert (Hf : focus_ok s).
  { revert Hrun. apply (run_invariant (λ _, True) focus_ok).
    - intros e' s1 s2 _ Hf Ht. by eapply transition_focus_ok.
    - by apply Forall_true.
    - unfold focus_ok. simpl. done. }
  destruct Hf as (_ & _ & Hr). destruct (Hr Hres) as [Hb Hbc].
  assert (Hmv : ∀ h d, move_cursor h d s = s).
  { intros h d. rewrite move_cursor_buttons by done.
    unfold current_buttons. rewrite Hres. unfold len. simpl.
    replace (Z.max 0 (Z.min (Z.of_nat 1 - 1) (button_cursor s + d)))
      with (button_cursor s) by lia.
    clear. by destruct s. }
  unfold handle_key, press_button, activate_button. rewrite Hres, Hb. simpl.
  split.
  - by intros [-> | ->].
  - intros Hne Hnq. destruct (binding (key e)); rewrite ?Hmv; done.
Qed.

Lemma report_is_final_witness :
  handle_key (typed 24 " ") reported = Running reported
  ∧ handle_key (press 24 "KEY_ENTER") reported = Exited reported.
Proof.
  split.
  - apply (report_is_final sample_catalog (Some "yay") to_report reported
             (typed 24 " ")); [reflexivity | reflexivity | discriminate
                              | discriminate].
  - apply (report_is_final sample_catalog (Some "yay") to_report reported
             (press 24 "KEY_ENTER")); [reflexivity | reflexivity
                                      | left; reflexivity].
Defined.

(** *** Where the results come from *)

Lemma transition_results_ok e s s' :
  transition e s s' → focus_ok s → results_ok s → results_ok s'.
Proof.
  intros Ht (Hm & Hc & Hr) [Hnr Hres]. unfold results_ok.
  by_transition Ht.
  - done.
  - destruct (move_cursor_frame (term_height e) delta s)
      as (-> & -> & _ & -> & ->). done.
  - simpl. done.
  - simpl. done.
  - simpl. done.
  - simpl. done.
  - pose proof Htog as Hfr.
    apply toggle_current_frame in Hfr as (_ & -> & _).
    apply toggle_current_identity in Htog as (_ & _ & ->).
    rewrite Hs. split; [intros _; apply Hnr; congruence|intros ?; discriminate].
  - button_cases Hact; try done;
      (split; [intros _; simpl; apply Hnr; congruence|intros ?; congruence]).
  - button_cases Hact. split; [done|]. intros _.
    exists (procs e), s. done.
Qed.

Lemma reachable_results_ok pkgs helper events s :
  state_of (run events (init pkgs helper)) = Some s →
  focus_ok s ∧ results_ok s.
Proof.
  apply (run_invariant (λ _, True) (λ s, focus_ok s ∧ results_ok s)).
  - intros e s1 s2 _ [Hf Hr] Ht.
    eauto using transition_focus_ok, transition_results_ok.
  - by apply Forall_true.
  - unfold focus_ok, results_ok. simpl. done.
Qed.

Lemma executed_batch_selected s p :
  p ∈ executed_batch s → p ∈ packages s ∧ Package.selected p = true.
Proof.
  unfold executed_batch, pacman_batch, flatpak_batch, selected_items.
  assert (Hsel : ∀ src, p ∈ from_source src (List.filter Package.selected (packages s)) →
                 p ∈ packages s ∧ Package.selected p = true).
  { intros src [Hin _]%from_source_spec.
    apply list_elem_of_In, filter_In in Hin as [Hin Hp].
    split; [by apply list_elem_of_In|done]. }
  rewrite elem_of_app.
  destruct (Py.truthy_opt (aur_helper s)).
  - rewrite elem_of_app. intros [[Hin|Hin]|Hin]; eauto.
  - intros [Hin|Hin]; [by apply elem_of_nil in Hin|eauto].
Qed.

Lemma executed_batch_length s :
  (length (executed_batch s) ≤ selected_count s)%nat.
Proof.
  unfold executed_batch, pacman_batch, flatpak_batch, selected_count.
  pose proof (from_source_partition (selected_items s)).
  destruct (Py.truthy_opt (aur_helper s)); rewrite !length_app; simpl; lia.
Qed.

(** X8.  [results] is empty until a report is shown.  In the report every
    result carries the name and the source of an item that is ticked
    in the catalogue on screen; there are at most as many results as
    ticked items, and exactly as many when the session has a helper. *)
Theorem results_are_of_selected_items
    (pkgs : list Package.t) (helper : option string)
    (events : list Event) (s : UpdaterTUI) :
  state_of (run events (init pkgs helper)) = Some s →
  (mode s ≠ RESULTS → results s = [])
  ∧ (mode s = RESULTS →
       Forall (λ r, ∃ p, p ∈ packages s ∧ Package.selected p = true
                         ∧ UpdateResult.name r = Package.name p
                         ∧ UpdateResult.source r = Package.source p)
              (results s)
       ∧ (length (results s) ≤ selected_count s)%nat
       ∧ (Py.truthy_opt helper = true →
            length (results s) = selected_count s)).
Proof.
  intros Hrun.
  pose proof (catalogue_identity_helper _ _ _ _ Hrun) as Hh.
  apply reachable_results_ok in Hrun as [_ [Hnr Hres]].
  split; [done|]. intros Hm.
  destruct (Hres Hm) as (procs & s0 & Hp & Ha & ->).
  rewrite run_updates_results.
  assert (Hsc : selected_count s0 = selected_count s)
    by (unfold selected_count, selected_items; by rewrite Hp).
  split; [|split].
  - apply Forall_forall. intros r (k & p & -> & Hk)%elem_of_lookup_imap.
    apply list_elem_of_lookup_2, executed_batch_selected in Hk as [Hin Hsel].
    exists p. rewrite <- Hp, record_result_name, record_result_source. done.
  - rewrite length_imap, <- Hsc. apply executed_batch_length.
  - intros Ht. rewrite length_imap, <- Hsc.
    apply executed_batch_with_helper. congruence.
Qed.

Lemma results_are_of_selected_items_witness :
  length (results reported) = selected_count reported.
Proof.
  apply (results_are_of_selected_items sample_catalog (Some "yay")
           to_report reported); reflexivity.
Defined.

(** *** Down to the buttons and back *)

Lemma reachable_view_ok pkgs helper h events s :
  pkgs ≠ [] → 1 ≤ visible_height h →
  Forall (λ e, term_height e = h) events →
  state_of (run events (init pkgs helper)) = Some s →
  cursor_ok (length pkgs) s ∧ window_ok h s ∧ scroll_ok (length pkgs) h s.
Proof.
  intros Hne Hvh Hev.
  assert (Hn : (1 ≤ length pkgs)%nat) by (destruct pkgs; simpl; [done|lia]).
  apply (run_invariant (λ e, term_height e = h)
           (λ s, cursor_ok (length pkgs) s ∧ window_ok h s
                 ∧ scroll_ok (length pkgs) h s)); [|done|].
  - intros e s1 s2 He (Hc & Hw & Hsc) Ht.
    eauto 6 using transition_cursor_ok, transition_window_ok,
      transition_scroll_ok.
  - unfold cursor_ok, window_ok, scroll_ok. simpl. lia.
Qed.



(** *** The commands of an update *)

Lemma update_loop_logged_spec procs argv pkgs res log :
  update_loop_logged procs argv pkgs (res, log) =
    (res ++ imap (λ i pkg, record_result pkg
                             (procs (length log + i)%nat (argv pkg))) pkgs,
     log ++ map argv pkgs).
Proof.
  unfold update_loop_logged. revert res log.
  induction pkgs as [|pkg pkgs IH]; intros res log; simpl.
  - by rewrite !app_nil_r.
  - rewrite IH. rewrite <- !app_assoc. simpl. rewrite Nat.add_0_r.
    do 3 f_equal. apply imap_ext. intros i x _. simpl.
    rewrite length_app. simpl. do 2 f_equal. lia.
Qed.

Lemma map_argv_batch (s : UpdaterTUI) :
  map (pacman_argv (default "" (aur_helper s))) (pacman_batch s)
    = map (update_argv s) (pacman_batch s)
  ∧ map flatpak_argv (flatpak_batch s) = map (update_argv s) (flatpak_batch s).
Proof.
  split; apply map_ext_in; intros p Hp%list_elem_of_In.
  - by apply pacman_batch_argv.
  - by apply flatpak_batch_argv.
Qed.

Lemma logged_commands procs s :
  (run_updates_logged procs s).2 =
    sync_argv s ++ map (update_argv s) (executed_batch s) ++ [refresh_argv].
Proof.
  destruct (map_argv_batch s) as [Hp Hf].
  unfold run_updates_logged, executed_batch, sync_argv. simpl.
  fold (selected_items s). fold (flatpak_batch s). fold (pacman_batch s).
  destruct (nonempty (pacman_batch s)) eqn:Hne;
    destruct (Py.truthy_opt (aur_helper s)) eqn:Hh;
    destruct (nonempty (flatpak_batch s)) eqn:Hnf;
    cbn [andb fst snd]; rewrite ?update_loop_logged_spec; cbn [fst snd];
    try apply nonempty_false in Hne as Hne';
    try apply nonempty_false in Hnf as Hnf';
    rewrite ?Hne', ?Hnf', ?map_app, ?Hp, ?Hf; simpl;
    rewrite ?app_nil_r, <- ?app_assoc; done.
Qed.

Lemma logged_state procs s :
  (run_updates_logged procs s).1 = run_updates procs s.
Proof.
  unfold run_updates_logged, run_updates. simpl.
  destruct (nonempty _ && Py.truthy_opt (aur_helper s));
    destruct (nonempty (from_source FLATPAK _));
    cbn [fst snd]; rewrite ?update_loop_logged_spec, ?update_loop_spec;
    cbn [fst snd]; rewrite ?update_loop_logged_spec, ?update_loop_spec;
    cbn [fst snd]; simpl; rewrite ?length_map; simpl; done.
Qed.

(** X10.  The commands of one [run_updates], in order: the database
    sync [helper -Sy] when the pacman batch runs, one update command
    per executed item in batch order, and the waybar signal last,
    always.  The log adds nothing to the state [run_updates] returns. *)
Theorem run_updates_commands (procs : Procs) (s : UpdaterTUI) :
  (run_updates_logged procs s).1 = run_updates procs s
  ∧ (run_updates_logged procs s).2 =
      sync_argv s ++ map (update_argv s) (executed_batch s) ++ [refresh_argv]
  ∧ length (run_updates_logged procs s).2 =
      (first_update_call s + length (executed_batch s) + 1)%nat.
Proof.
  split; [apply logged_state|]. split; [apply logged_commands|].
  rewrite logged_commands, !length_app, length_map.
  unfold sync_argv, first_update_call.
  destruct (nonempty (pacman_batch s) && Py.truthy_opt (aur_helper s)); simpl; lia.
Qed.

(** X11.  What [run_updates] starts does not depend on how the commands
    answer: a failure stops nothing.  Every command is the sync, the
    waybar signal or the update of a ticked item of the catalogue; and
    without a helper nothing but [flatpak update] of ticked flatpak
    items and the signal is started. *)
Theorem only_selected_items_updated (procs procs' : Procs) (s : UpdaterTUI) :
  (run_updates_logged procs s).2 = (run_updates_logged procs' s).2
  ∧ (∀ argv, argv ∈ (run_updates_logged procs s).2 →
       argv ∈ sync_argv s ∨ argv = refresh_argv
       ∨ ∃ p, p ∈ packages s ∧ Package.selected p = true
              ∧ argv = update_argv s p)
  ∧ (Py.truthy_opt (aur_helper s) = false →
       ∀ argv, argv ∈ (run_updates_logged procs s).2 →
         argv = refresh_argv
         ∨ ∃ p, p ∈ packages s ∧ Package.selected p = true
                ∧ Package.source p = FLATPAK ∧ argv = flatpak_argv p).
Proof.
  split; [by rewrite !logged_commands|]. split.
  - intros argv. rewrite logged_commands, !elem_of_app.
    intros [Hin|[Hin|Hin]]; [by left| |].
    + apply list_elem_of_fmap in Hin as (p & -> & Hp).
      apply executed_batch_selected in Hp as [Hin Hsel]. eauto 6.
    + apply list_elem_of_singleton in Hin. auto.
  - intros Hh argv. rewrite logged_commands, !elem_of_app.
    unfold sync_argv, executed_batch. rewrite Hh, andb_false_r. simpl.
    intros [Hin|[Hin|Hin]].
    + by apply elem_of_nil in Hin.
    + apply list_elem_of_fmap in Hin as (p & -> & Hp). right. exists p.
      pose proof Hp as Hsrc. unfold flatpak_batch in Hsrc.
      apply from_source_spec in Hsrc as [Hsel Hsrc].
      apply list_elem_of_In, filter_In in Hsel as [Hin Hsel].
      split; [by apply list_elem_of_In|]. split; [done|]. split; [done|].
      unfold update_argv. by rewrite Hsrc.
    + apply list_elem_of_singleton in Hin. auto.
Qed.

(** *** What the adapters can return *)

Lemma first_field_nonempty line parts :
  Py.split_ws line = parts → ∀ i w, parts !! i = Some w → is_field w.
Proof.
  intros <- i w Hw. pose proof (split_ws_fields line) as Hf.
  rewrite Forall_forall in Hf. apply Hf. by eapply list_elem_of_lookup_2.
Qed.

Lemma nth_field line (i : nat) :
  (i < length (Py.split_ws line))%nat → is_field (nth i (Py.split_ws line) "").
Proof.
  intros Hi. destruct (lookup_lt_is_Some_2 _ _ Hi) as [w Hw].
  rewrite (nth_lookup_Some _ _ "" _ Hw).
  by apply (first_field_nonempty line _ eq_refl i).
Qed.

Lemma question_mark_field : is_field "?".
Proof. by split. Qed.

Lemma official_line_well_formed line p :
  official_line line = Some p → well_formed p.
Proof.
  unfold official_line. destruct (Nat.leb_spec 4 (length (Py.split_ws line)));
    intros; simplify_eq.
  unfold well_formed. simpl. repeat split; apply nth_field; lia.
Qed.

Lemma aur_line_well_formed line p : aur_line line = Some p → well_formed p.
Proof.
  unfold aur_line. destruct (Nat.leb_spec 4 (length (Py.split_ws line))).
  - intros; simplify_eq. unfold well_formed. simpl.
    repeat split; apply nth_field; lia.
  - destruct (Nat.leb_spec 2 (length (Py.split_ws line))); [|done].
    destruct (Nat.ltb_spec 1 (length (Py.split_ws line))); [|lia].
    intros; simplify_eq. unfold well_formed. simpl.
    repeat split; try (apply nth_field; lia); apply question_mark_field.
Qed.

Lemma rstrip_cons c s :
  Py.rstrip (String c s) =
    match Py.rstrip s with
    | EmptyString => if Py.isspace c then EmptyString else String c EmptyString
    | r => String c r
    end.
Proof. done. Qed.

Lemma rstrip_idem s : Py.rstrip (Py.rstrip s) = Py.rstrip s.
Proof.
  induction s as [|c s IH]; [done|]. rewrite rstrip_cons.
  destruct (Py.rstrip s) as [|c' r] eqn:Hr.
  - destruct (Py.isspace c) eqn:Hc; [done|]. simpl. by rewrite Hc.
  - rewrite rstrip_cons, IH. done.
Qed.

Lemma lstrip_head s c t : Py.lstrip s = String c t → Py.isspace c = false.
Proof.
  induction s as [|a s IH]; [done|]. simpl.
  destruct (Py.isspace a) eqn:Ha; [done|]. intros; by simplify_eq.
Qed.

Lemma lstrip_rstrip s :
  Py.lstrip (Py.rstrip (Py.lstrip s)) = Py.rstrip (Py.lstrip s).
Proof.
  destruct (Py.lstrip s) as [|c t] eqn:Hl; [done|].
  apply lstrip_head in Hl. rewrite rstrip_cons.
  destruct (Py.rstrip t); rewrite ?Hl; simpl; by rewrite Hl.
Qed.

Lemma strip_idem s : Py.strip (Py.strip s) = Py.strip s.
Proof. unfold Py.strip. by rewrite lstrip_rstrip, rstrip_idem. Qed.

Lemma flatpak_line_well_formed line p :
  flatpak_line line = Some p → well_formed p.
Proof.
  unfold flatpak_line. destruct (Py.split Py.TAB line) as [|c0 rest]; [done|].
  simpl. destruct (Py.truthy (Py.strip c0)) eqn:Ht; [|done].
  intros; simplify_eq. unfold well_formed. simpl.
  split; [by destruct (Py.strip c0)|]. split; [apply strip_idem|done].
Qed.

(** X12.  Every item of the catalogue [main] builds has a non-empty
    name.  Names and versions from the repo and AUR listings are single
    fields without whitespace; a flatpak name is stripped and its
    current version is the fixed text [installed]. *)
Theorem fetched_items_well_formed (env : Env) :
  Forall (λ p, well_formed p ∧ Package.name p ≠ "") (gather_packages env).
Proof.
  assert (Hname : ∀ p, well_formed p → well_formed p ∧ Package.name p ≠ "").
  { intros p Hp. split; [done|]. unfold well_formed in Hp.
    destruct (Package.source p); by destruct Hp as [[? ?] _] || destruct Hp as [? _]. }
  assert (Hall : ∀ body r, (∀ line p, body line = Some p → well_formed p) →
    Forall (λ p, well_formed p ∧ Package.name p ≠ "") (parse_listing body r)).
  { intros body r Hb. apply parse_listing_Forall. eauto. }
  unfold gather_packages. simpl.
  repeat first
    [ apply Forall_app; split
    | apply Hall; first [apply official_line_well_formed
                        | apply aur_line_well_formed
                        | apply flatpak_line_well_formed] ].
  - destruct (detect_aur_helper env) as [h|]; [|apply Hall, official_line_well_formed].
    destruct (Py.truthy h); [|apply Hall, official_line_well_formed].
    apply Forall_app; split; apply Hall;
      [apply official_line_well_formed|apply aur_line_well_formed].
  - unfold get_flatpak_updates. case_match; [constructor|].
    apply Hall, flatpak_line_well_formed.
Qed.

(** *** Slices and the pages of the frames *)




Lemma slice_lookup {A} (l : list A) a b (i : nat) :
  0 ≤ a → a + Z.of_nat i < b → a + Z.of_nat i < len l →
  Seq.slice l a b !! i = l !! Z.to_nat (a + Z.of_nat i).
Proof.
  intros Ha Hb Hn. unfold Seq.slice, len in *.
  assert (Ha' : Seq.adjust (Z.of_nat (length l)) a = a).
  { unfold Seq.adjust. case_match; bool_to_Z; lia. }
  assert (Hb' : a + Z.of_nat i < Seq.adjust (Z.of_nat (length l)) b).
  { unfold Seq.adjust. case_match; bool_to_Z; lia. }
  rewrite Ha'. rewrite lookup_take_lt by lia. rewrite lookup_drop.
  f_equal. lia.
Qed.


Lemma show_results_spec line avail rs shown :
  show_results line avail rs shown =
    (map line (take (rows_that_fit avail shown rs) rs),
     shown + Z.of_nat (rows_that_fit avail shown rs)).
Proof.
  unfold rows_that_fit.
  revert shown. induction rs as [|r rs IH]; intros shown.
  - replace (Z.to_nat _) with 0%nat by (unfold len; simpl; lia).
    simpl. f_equal. lia.
  - cbn [show_results]. destruct (Z.geb_spec shown avail) as [Hge|Hlt].
    + replace (Z.to_nat _) with 0%nat by (unfold len; simpl; lia).
      simpl. f_equal. lia.
    + rewrite IH.
      replace (Z.to_nat (Z.min (len (r :: rs)) (Z.max 0 (avail - shown))))
        with (S (Z.to_nat (Z.min (len rs) (Z.max 0 (avail - (shown + 1))))))
        by (unfold len; simpl length; lia).
      simpl. f_equal. lia.
Qed.

Lemma take_min_len {A} (l : list A) m :
  take (Z.to_nat (Z.min (len l) m)) l = take (Z.to_nat m) l.
Proof.
  unfold len. destruct (Z.le_ge_cases m (Z.of_nat (length l))).
  - by rewrite Z.min_r.
  - rewrite Z.min_l by lia. rewrite Nat2Z.id.
    rewrite take_ge by lia. rewrite take_ge; [done|lia].
Qed.

(** X13.  The report shows one page: under its three header lines come
    the first [height - 10] lines of the successes followed by the
    failures, then blank lines up to the page size, a blank line and
    the buttons.  Failures beyond the page are not shown. *)
Theorem results_frame_rows (term : Terminal.t) (s : UpdaterTUI) :
  ∃ summary,
    draw_results_mode term s =
      [""; summary; ""]
      ++ result_rows term s
      ++ repeat "" (Z.to_nat (visible_height (Terminal.height term))
                    - length (result_rows term s))
      ++ [""] ++ draw_buttons term s.
Proof.
  unfold draw_results_mode, result_rows.
  set (ok := List.filter UpdateResult.success (results s)).
  set (bad := List.filter (λ r, negb (UpdateResult.success r)) (results s)).
  set (vh := visible_height (Terminal.height term)).
  rewrite !show_results_spec. unfold rows_that_fit.
  eexists. f_equal.
  rewrite take_app, length_map, !firstn_map, <- app_assoc.
  rewrite !take_min_len.
  assert (Hok : Z.to_nat (Z.max 0 (vh - 0)) = Z.to_nat vh) by lia.
  rewrite Hok.
  assert (Hbad : take (Z.to_nat (Z.max 0 (vh - (0 + Z.of_nat (Z.to_nat (Z.min (len ok) (Z.max 0 (vh - 0)))))))) bad
                 = take (Z.to_nat vh - length ok) bad).
  { unfold len. destruct (Z.le_ge_cases vh (Z.of_nat (length ok))).
    - replace (Z.to_nat _) with 0%nat by lia.
      replace (Z.to_nat vh - length ok)%nat with 0%nat by lia. done.
    - f_equal. lia. }
  rewrite Hbad. do 2 f_equal. f_equal.
  rewrite length_app, !length_map, !length_take. unfold len. f_equal. lia.
Qed.

(** *** The height of a frame *)







(** *** The focus on the screen *)

Lemma imap_plain {A B} (f : nat → A → B) (h : A → B) l :
  (∀ i y, l !! i = Some y → f i y = h y) → imap f l = map h l.
Proof.
  revert f. induction l as [|x l IH]; intros f Hf; simpl; [done|].
  rewrite (Hf 0%nat x eq_refl). f_equal.
  apply IH. intros i y Hi. apply (Hf (S i) y Hi).
Qed.

Lemma imap_marked {A B} (f : nat → A → B) (g h : A → B) l k x :
  l !! k = Some x →
  (∀ i y, l !! i = Some y → f i y = if decide (i = k) then g y else h y) →
  imap f l = map h (take k l) ++ [g x] ++ map h (drop (S k) l).
Proof.
  revert f k. induction l as [|a l IH]; intros f k Hk Hf; [done|].
  destruct k as [|k]; simpl in *.
  - simplify_eq. rewrite (Hf 0%nat x eq_refl). simpl. f_equal.
    rewrite drop_0. apply imap_plain. intros i y Hi. unfold compose.
    by rewrite (Hf (S i) y Hi).
  - rewrite (Hf 0%nat a eq_refl). simpl. f_equal.
    apply (IH _ k Hk). intros i y Hi. unfold compose.
    rewrite (Hf (S i) y Hi).
    repeat case_decide; done || lia.
Qed.

(** X15.  On a terminal whose height stays the same and leaves a page of
    one line or more, the item under the cursor is always among the
    rows drawn: with the focus on the list exactly that row carries the
    arrow, [cursor - scroll_offset] rows down; with the focus on the
    buttons no row does. *)
Theorem arrow_marks_cursor_item
    (pkgs : list Package.t) (helper : option string) (term : Terminal.t)
    (events : list Event) (s : UpdaterTUI) :
  pkgs ≠ [] →
  1 ≤ visible_height (Terminal.height term) →
  Forall (λ e, term_height e = Terminal.height term) events →
  state_of (run events (init pkgs helper)) = Some s →
  let rows := imap (package_line term s) (visible_packages term s) in
  if in_button_area s then
    rows = map (item_row term " ") (visible_packages term s)
  else
    ∃ above pkg below,
      packages s !! Z.to_nat (cursor s) = Some pkg
      ∧ visible_packages term s = above ++ [pkg] ++ below
      ∧ len above = cursor s - scroll_offset s
      ∧ rows = map (item_row term " ") above
               ++ [item_row term ">" pkg]
               ++ map (item_row term " ") below.
Proof.
  intros Hne Hvh Hev Hrun rows. subst rows.
  destruct (reachable_view_ok _ _ _ _ _ Hne Hvh Hev Hrun)
    as ([Hlen Hc] & Hw & Hsc).
  unfold window_ok, scroll_ok in *.
  destruct (in_button_area s) eqn:Hb.
  - apply imap_plain. intros i y _. unfold package_line, item_row.
    by rewrite Hb, andb_false_r.
  - set (k := Z.to_nat (cursor s - scroll_offset s)).
    assert (Hk : visible_packages term s !! k
                 = packages s !! Z.to_nat (cursor s)).
    { unfold visible_packages. rewrite slice_lookup; unfold len; try lia.
      f_equal. lia. }
    destruct (lookup_lt_is_Some_2 (packages s) (Z.to_nat (cursor s)))
      as [pkg Hpkg]; [lia|].
    rewrite Hpkg in Hk.
    exists (take k (visible_packages term s)), pkg,
           (drop (S k) (visible_packages term s)).
    split; [done|]. split; [|split].
    + by rewrite <- (take_drop_middle _ _ _ Hk) at 1.
    + unfold len. rewrite length_take.
      apply lookup_lt_Some in Hk. lia.
    + apply (imap_marked _ (item_row term ">") (item_row term " ") _ k pkg Hk).
      intros i y _. unfold package_line, item_row. rewrite Hb. simpl.
      rewrite andb_true_r.
      destruct (Z.eqb_spec (Z.of_nat i + scroll_offset s) (cursor s));
        case_decide; done || lia.
Qed.

Lemma arrow_marks_cursor_item_witness :
  let term := plain_terminal 24 80 in
  let s := browsing 1 0 in
  ∃ above pkg below,
    packages s !! Z.to_nat (cursor s) = Some pkg
    ∧ visible_packages term s = above ++ [pkg] ++ below
    ∧ len above = cursor s - scroll_offset s
    ∧ imap (package_line term s) (visible_packages term s)
      = map (item_row term " ") above
        ++ [item_row term ">" pkg]
        ++ map (item_row term " ") below.
Proof.
  apply (arrow_marks_cursor_item sample_catalog (Some "yay")
           (plain_terminal 24 80) [press 24 "KEY_DOWN"] (browsing 1 0));
    [discriminate | vm_compute; discriminate | repeat constructor
    | reflexivity].
Defined.

(** X16.  After any run the button bar shows where the focus is: with
    the focus on the buttons exactly the button under [button_cursor]
    is drawn reversed, and that button exists; with the focus on the
    list the bar is the four buttons of the list, none reversed. *)
Theorem focused_button_is_reversed
    (pkgs : list Package.t) (helper : option string) (term : Terminal.t)
    (events : list Event) (s : UpdaterTUI) :
  state_of (run events (init pkgs helper)) = Some s →
  if in_button_area s then
    ∃ k btn,
      button_cursor s = Z.of_nat k
      ∧ current_buttons s !! k = Some btn
      ∧ draw_buttons term s =
          [Terminal.center term
             (join "  " (map plain_button (take k (current_buttons s))
                         ++ [focused_button term btn]
                         ++ map plain_button (drop (S k) (current_buttons s))))]
  else
    mode s = SELECT
    ∧ draw_buttons term s =
        [Terminal.center term (join "  " (map plain_button SELECT_BUTTONS))].
Proof.
  intros Hrun.
  assert (Hinv : indices_ok s ∧ focus_ok s).
  { revert Hrun.
    apply (run_invariant (λ _, True) (λ s, indices_ok s ∧ focus_ok s)).
    - intros e s1 s2 _ [Hi Hf] Ht.
      eauto using transition_indices_ok, transition_focus_ok.
    - by apply Forall_forall.
    - split; [apply init_indices_ok|]. unfold focus_ok. simpl.
      repeat split; congruence. }
  destruct Hinv as [(Hm & _ & Hbtn) (_ & Hcf & Hrs)].
  destruct (in_button_area s) eqn:Hb.
  - destruct (Hbtn eq_refl) as [Hlo Hhi]. unfold len in Hhi.
    set (k := Z.to_nat (button_cursor s)).
    destruct (lookup_lt_is_Some_2 (current_buttons s) k) as [btn Hk]; [lia|].
    exists k, btn. split; [lia|]. split; [done|].
    unfold draw_buttons. do 3 f_equal.
    apply (imap_marked _ (focused_button term) plain_button _ k btn Hk).
    intros i y _. rewrite Hb. simpl.
    destruct (Z.eqb_spec (Z.of_nat i) (button_cursor s));
      case_decide; done || lia.
  - assert (Hsel : mode s = SELECT).
    { destruct (mode s); try done.
      - specialize (Hcf eq_refl). congruence.
      - destruct (Hrs eq_refl). congruence. }
    split; [done|]. unfold draw_buttons. do 3 f_equal.
    unfold current_buttons. rewrite Hsel.
    apply imap_plain. intros i y _. by rewrite Hb.
Qed.

Lemma focused_button_is_reversed_witness :
  let term := plain_terminal 24 80 in
  let s := on_button CONFIRM 0 in
  ∃ k btn,
    button_cursor s = Z.of_nat k
    ∧ current_buttons s !! k = Some btn
    ∧ draw_buttons term s =
        [Terminal.center term
           (join "  " (map plain_button (take k (current_buttons s))
                       ++ [focused_button term btn]
                       ++ map plain_button (drop (S k) (current_buttons s))))].
Proof.
  apply (focused_button_is_reversed sample_catalog (Some "yay")
           (plain_terminal 24 80)
           (to_update_button ++ [press 24 "KEY_ENTER"]) (on_button CONFIRM 0)).
  reflexivity.
Defined.

(** *** Cutting a text to the width *)

Lemma substring_0_length (n : nat) (s : string) :
  String.length (substring 0 n s) = Nat.min n (String.length s).
Proof.
  revert n. induction s as [|c s IH]; intros [|n]; simpl; auto.
Qed.

Lemma substring_0_prefix (n : nat) (s : string) :
  ∃ rest, s = substring 0 n s +++ rest.
Proof.
  revert n. induction s as [|c s IH]; intros [|n]; simpl; eauto.
  destruct (IH n) as [rest Hrest]. exists rest. by rewrite <- Hrest.
Qed.

(** X17.  Cutting a text to a limit keeps a prefix of it.  For a limit of
    zero or more the result has [min(len, limit)] characters; for a
    negative limit, as on a terminal narrower than the reserved
    columns, the slice counts from the end and [max(0, len + limit)]
    characters stay. *)
Theorem truncate_cuts (text : string) (limit : Z) :
  (∃ rest, text = truncate text limit +++ rest)
  ∧ Seq.strlen (truncate text limit) =
      if limit <? 0 then Z.max 0 (Seq.strlen text + limit)
      else Z.min (Seq.strlen text) limit.
Proof.
  unfold truncate, Seq.str_upto, Seq.adjust, Seq.strlen.
  destruct (Z.gtb_spec (Z.of_nat (String.length text)) limit) as [Hgt|Hle].
  - split; [apply substring_0_prefix|].
    rewrite substring_0_length.
    destruct (Z.ltb_spec limit 0); lia.
  - split; [exists ""; clear; induction text; simpl; congruence|].
    destruct (Z.ltb_spec limit 0); lia.
Qed.

(** *** The helper of a session *)

Lemma from_source_tagged src src' l :
  Forall (tagged src') l →
  from_source src l = if PackageSource_eqb src' src then l else [].
Proof.
  unfold from_source, tagged. induction 1 as [|p l [Hp _] _ IH]; simpl.
  - by destruct (PackageSource_eqb src' src).
  - rewrite Hp, IH. by destruct (PackageSource_eqb src' src).
Qed.

Lemma from_source_app src l1 l2 :
  from_source src (l1 ++ l2) = from_source src l1 ++ from_source src l2.
Proof. apply List.filter_app. Qed.

Lemma filter_all_selected l :
  Forall (λ p, Package.selected p = true) l →
  List.filter Package.selected l = l.
Proof. induction 1 as [|p l Hp _ IH]; simpl; [done|]. by rewrite Hp, IH. Qed.

(** The grouping of [run_updates] over a catalogue as [main] builds it
    gives back the three listings. *)
Lemma from_source_catalogue src o a f :
  Forall (tagged OFFICIAL) o → Forall (tagged AUR) a →
  Forall (tagged FLATPAK) f →
  from_source src (List.filter Package.selected (o ++ a ++ f)) =
    match src with OFFICIAL => o | AUR => a | FLATPAK => f end.
Proof.
  intros Ho Ha Hf. rewrite filter_all_selected.
  - rewrite !from_source_app.
    rewrite (from_source_tagged _ _ _ Ho), (from_source_tagged _ _ _ Ha),
      (from_source_tagged _ _ _ Hf).
    destruct src; simpl; by rewrite ?app_nil_r.
  - rewrite !Forall_app. repeat split;
      (eapply Forall_impl; [eassumption|by intros p [_ ?]]).
Qed.

Lemma detect_aur_helper_cases env :
  detect_aur_helper env =
    if Py.truthy_opt (which env "paru") then Some "paru"
    else if Py.truthy_opt (which env "yay") then Some "yay"
    else None.
Proof. done. Qed.

(** X18.  The session [main] starts: [paru] is the helper when it is
    installed, [yay] only when [paru] is not.  With a helper the
    catalogue is the repo listing, that helper's AUR listing and the
    flatpak listing, and an update of the untouched catalogue runs
    every item in catalogue order.  With no helper the repo items are
    listed all the same, and an update runs the flatpak items only. *)
Theorem fresh_session_batch (env : Env) :
  let s := init (gather_packages env) (detect_aur_helper env) in
  let official := get_official_updates (checkupdates env) in
  let flatpak :=
    get_flatpak_updates (which env "flatpak") (flatpak_remote_ls env) in
  if Py.truthy_opt (which env "paru") then
    aur_helper s = Some "paru"
    ∧ packages s = official ++ get_aur_updates (helper_Qum env "paru") ++ flatpak
    ∧ executed_batch s = packages s
  else if Py.truthy_opt (which env "yay") then
    aur_helper s = Some "yay"
    ∧ packages s = official ++ get_aur_updates (helper_Qum env "yay") ++ flatpak
    ∧ executed_batch s = packages s
  else
    aur_helper s = None
    ∧ packages s = official ++ flatpak
    ∧ executed_batch s = flatpak.
Proof.
  intros s official flatpak. subst s.
  assert (Ho : Forall (tagged OFFICIAL) official)
    by (apply parse_listing_Forall, official_line_tagged).
  assert (Ha : ∀ h, Forall (tagged AUR) (get_aur_updates (helper_Qum env h)))
    by (intros h; apply parse_listing_Forall, aur_line_tagged).
  assert (Hf : Forall (tagged FLATPAK) flatpak).
  { subst flatpak. unfold get_flatpak_updates. case_match; [by constructor|].
    apply parse_listing_Forall, flatpak_line_tagged. }
  unfold executed_batch, pacman_batch, flatpak_batch, selected_items,
    gather_packages.
  rewrite detect_aur_helper_cases. simpl. fold official. fold flatpak.
  destruct (Py.truthy_opt (which env "paru")); [|
    destruct (Py.truthy_opt (which env "yay"))]; simpl;
    (split; [done|]); rewrite <- ?app_assoc; (split; [done|]).
  - by rewrite !(from_source_catalogue _ _ _ _ Ho (Ha "paru") Hf).
  - by rewrite !(from_source_catalogue _ _ _ _ Ho (Ha "yay") Hf).
  - change (official ++ flatpak) with (official ++ [] ++ flatpak).
    by rewrite (from_source_catalogue FLATPAK _ [] _ Ho (List.Forall_nil _) Hf).
Qed.
